(** * CallingJournal: the client's chat-session and context-injection core

    A shallow embedding of the browser client of the journaling application:
    the shared API client ([api.js]), the collaborative editor ([AITalk.jsx])
    and the standalone chat ([ChatInterface.jsx]).

    JavaScript values are an inductive type, a JS object used as a map is a
    [gmap], the server is an abstract state machine answering one request at
    a time, and an [async] function is a computation in a state-and-exception
    monad over the browser's world (local storage, the network log, the
    server's state and the console). *)

From Stdlib Require Import ZArith Lia Ascii String.
From stdpp Require Import base strings gmap list pretty.

Set Warnings "-register-all".

Local Open Scope string_scope.
Local Open Scope list_scope.
Local Open Scope Z_scope.

(** ** JavaScript values *)

(** Numbers are restricted to [NaN], which [parseInt] produces, and to the
    integers (session ids, HTTP statuses). A JavaScript number is a double:
    [VNum n] stands for the number n only while n is a safe integer, of
    magnitude at most 2^53 - 1; in that range the decimal form that
    [to_string] writes and the value that [parseInt] reads are those of
    JavaScript. *)
Inductive jsval : Type :=
  | VUndefined
  | VNull
  | VBool (b : bool)
  | VNum (n : Z)
  | VNaN
  | VStr (s : string)
  | VArr (elems : list jsval)
  | VObj (fields : list (string * jsval)).

(** A string is carried as its UTF-8 bytes, one [ascii] each. *)
Definition bytes (l : list nat) : string :=
  string_of_list_ascii (map ascii_of_nat l).

Definition nl : string := bytes [10%nat].

Definition is_empty (s : string) : bool :=
  match s with
  | EmptyString => true
  | String _ _ => false
  end.

(** [ToBoolean]: what [if (v)] and [!v] test. *)
Definition truthy (v : jsval) : bool :=
  match v with
  | VUndefined | VNull | VNaN => false
  | VBool b => b
  | VNum n => negb (n =? 0)
  | VStr s => negb (is_empty s)
  | VArr _ | VObj _ => true
  end.

Fixpoint join (sep : string) (l : list string) : string :=
  match l with
  | [] => ""
  | [s] => s
  | s :: l' => s +:+ sep +:+ join sep l'
  end.

(** [ToString]: what a template literal [`${v}`] and [localStorage.setItem]
    apply to a value. *)
Fixpoint to_string (v : jsval) : string :=
  match v with
  | VUndefined => "undefined"
  | VNull => "null"
  | VBool true => "true"
  | VBool false => "false"
  | VNum n => pretty n
  | VNaN => "NaN"
  | VStr s => s
  | VArr elems =>
      join ","
        ((fix elems_to_string (l : list jsval) : list string :=
            match l with
            | [] => []
            | VUndefined :: l' | VNull :: l' => "" :: elems_to_string l'
            | e :: l' => to_string e :: elems_to_string l'
            end) elems)
  | VObj _ => "[object Object]"
  end.

(** The white-space and line-terminator characters of ECMAScript, each by
    its UTF-8 encoding: TAB, LF, VT, FF, CR, SP, NBSP, U+1680, U+2000 to
    U+200A, U+2028, U+2029, U+202F, U+205F, U+3000 and U+FEFF. *)
Definition whitespace : list string :=
  (bytes <$> [[9]; [10]; [11]; [12]; [13]; [32]; [194; 160]; [225; 154; 128];
              [226; 128; 128]; [226; 128; 129]; [226; 128; 130];
              [226; 128; 131]; [226; 128; 132]; [226; 128; 133];
              [226; 128; 134]; [226; 128; 135]; [226; 128; 136];
              [226; 128; 137]; [226; 128; 138]; [226; 128; 168];
              [226; 128; 169]; [226; 128; 175]; [226; 129; 159];
              [227; 128; 128]; [239; 187; 191]])%nat.

Fixpoint strip_prefix (p s : string) : option string :=
  match p, s with
  | EmptyString, _ => Some s
  | String a p', String b s' =>
      if Ascii.eqb a b then strip_prefix p' s' else None
  | String _ _, EmptyString => None
  end.

(** The rest of [s] after one leading character of [chars], if it has one. *)
Fixpoint strip_one (chars : list string) (s : string) : option string :=
  match chars with
  | [] => None
  | c :: chars' =>
      match strip_prefix c s with
      | Some rest => Some rest
      | None => strip_one chars' s
      end
  end.

Fixpoint strip_leading (fuel : nat) (chars : list string) (s : string) : string :=
  match fuel with
  | O => s
  | S fuel' =>
      match strip_one chars s with
      | Some rest => strip_leading fuel' chars rest
      | None => s
      end
  end.

Definition trim_start (s : string) : string :=
  strip_leading (String.length s) whitespace s.

Definition trim_end (s : string) : string :=
  String.rev
    (strip_leading (String.length s) (String.rev <$> whitespace) (String.rev s)).

(** [String.prototype.trim]. *)
Definition trim (s : string) : string := trim_end (trim_start s).

Definition digit_value (a : ascii) : option Z :=
  let n := Z.of_nat (nat_of_ascii a) in
  if (48 <=? n) && (n <=? 57) then Some (n - 48)
  else if (97 <=? n) && (n <=? 102) then Some (n - 87)
  else if (65 <=? n) && (n <=? 70) then Some (n - 55)
  else None.

Fixpoint parse_digits (radix : Z) (s : string) (acc : option Z) : option Z :=
  match s with
  | String a s' =>
      match digit_value a with
      | Some d =>
          if d <? radix
          then parse_digits radix s' (Some (default 0 acc * radix + d))
          else acc
      | None => acc
      end
  | EmptyString => acc
  end.

(** [parseInt(s)] with no radix: leading white space, a sign, a [0x] prefix,
    then the longest run of digits; [NaN] when there is none. *)
Definition parseInt (s : string) : jsval :=
  let s := trim_start s in
  let '(negative, s) :=
    match s with
    | String "-" r => (true, r)
    | String "+" r => (false, r)
    | _ => (false, s)
    end in
  let '(radix, s) :=
    match s with
    | String "0" (String "x" r) | String "0" (String "X" r) => (16, r)
    | _ => (10, s)
    end in
  match parse_digits radix s None with
  | Some n => VNum (if negative : bool then - n else n)
  | None => VNaN
  end.

(** ** Exceptions and the monad of [async] functions *)

Record response : Type := Response { status : Z; body : jsval }.

(** What a handler can catch: the error axios rejects with (carrying the
    response when the server answered) or a [TypeError] of the runtime. *)
Inductive jserror : Type :=
  | AxiosError (resp : option response)
  | TypeError.

Inductive outcome (A : Type) : Type :=
  | Ret (a : A)
  | Throw (e : jserror).
Arguments Ret {A} a.
Arguments Throw {A} e.

(** State is never rolled back by an exception. *)
Definition M (S A : Type) : Type := S -> outcome A * S.

Definition ret {S A} (a : A) : M S A := fun s => (Ret a, s).

Definition throw {S A} (e : jserror) : M S A := fun s => (Throw e, s).

Definition bind {S A B} (m : M S A) (k : A -> M S B) : M S B :=
  fun s =>
    match m s with
    | (Ret a, s') => k a s'
    | (Throw e, s') => (Throw e, s')
    end.

Notation "x <- m ;; k" := (bind m (fun x => k))
  (at level 100, m at next level, right associativity).
Notation "m ;;; k" := (bind m (fun _ => k))
  (at level 100, right associativity).

Definition modify {S} (f : S -> S) : M S unit := fun s => (Ret tt, f s).

Definition gets {S A} (f : S -> A) : M S A := fun s => (Ret (f s), s).

(** [try { m } catch (error) { handler error }]. *)
Definition try_catch {S A} (m : M S A) (handler : jserror -> M S A) : M S A :=
  fun s =>
    match m s with
    | (Ret a, s') => (Ret a, s')
    | (Throw e, s') => handler e s'
    end.

(** [try { m } finally { cleanup }]: the cleanup runs on both exits and the
    outcome of [m] stands unless the cleanup throws. *)
Definition try_finally {S A} (m : M S A) (cleanup : M S unit) : M S A :=
  fun s =>
    match m s with
    | (r, s') =>
        match cleanup s' with
        | (Ret _, s'') => (r, s'')
        | (Throw e, s'') => (Throw e, s'')
        end
    end.

(** Run a computation on one component of a pair of states. *)
Definition on_snd {C W A} (m : M W A) : M (C * W) A :=
  fun cw =>
    match m (snd cw) with
    | (r, w') => (r, (fst cw, w'))
    end.

Definition on_fst {C W} (f : C -> C) : M (C * W) unit :=
  modify (fun cw => (f (fst cw), snd cw)).

(** [o.name]: reading a property of [null] or [undefined] throws; a missing
    property, and any property of another primitive, reads [undefined]. *)
Fixpoint lookup_field (name : string) (fields : list (string * jsval)) : option jsval :=
  match fields with
  | [] => None
  | (k, v) :: fields' =>
      if String.eqb k name then Some v else lookup_field name fields'
  end.

(** [None] stands for the [TypeError]. *)
Definition prop (o : jsval) (name : string) : option jsval :=
  match o with
  | VUndefined | VNull => None
  | VObj fields => Some (default VUndefined (lookup_field name fields))
  | _ => Some VUndefined
  end.

Definition get_prop {S} (o : jsval) (name : string) : M S jsval :=
  match prop o name with
  | Some v => ret v
  | None => throw TypeError
  end.

Definition is_primitive (v : jsval) : bool :=
  match v with
  | VArr _ | VObj _ => false
  | _ => true
  end.

(** [a === b]. [NaN] equals nothing. An array or an object equals only
    itself, and values carry no identity: two of them never compare equal
    here, so the comparison is exact whenever one side is a primitive. *)
Definition strict_eq (a b : jsval) : bool :=
  match a, b with
  | VUndefined, VUndefined | VNull, VNull => true
  | VBool x, VBool y => Bool.eqb x y
  | VNum x, VNum y => x =? y
  | VStr x, VStr y => String.eqb x y
  | _, _ => false
  end.

(** ** HTTP and the server *)

Inductive http_method : Type := GET | POST | PUT | DELETE.

Inductive payload : Type :=
  | NoBody
  | Json (v : jsval)
  | FormData (fields : list (string * string)).

Record request : Type := Request {
  method : http_method;
  url : string;
  headers : gmap string string;
  data : payload
}.

(** The backend is outside the client: any state machine that answers a
    request with a response, or with none when the network fails. *)
Class Server : Type := {
  SState : Type;
  serve : request -> SState -> option response * SState
}.

(** The browser's world as one client sees it. *)
Record world `{Server} : Type := World {
  localStorage : gmap string string;
  network : list (request * option response);
  backend : SState;
  console : list string
}.

Section WorldUpdates.
Context `{Server}.

Definition set_localStorage (f : gmap string string -> gmap string string)
    (w : world) : world :=
  {| localStorage := f (localStorage w); network := network w;
     backend := backend w; console := console w |}.

Definition set_console (f : list string -> list string) (w : world) : world :=
  {| localStorage := localStorage w; network := network w;
     backend := backend w; console := f (console w) |}.

(** [console.error(msg, error)]: the message is kept, the error is not. *)
Definition console_error (msg : string) : M world unit :=
  modify (set_console (fun log => log ++ [msg])).
End WorldUpdates.

(** ** The shared API client (api.js) *)

Module Api.
Section Client.
Context `{Server}.

Definition API_URL : string := "http://localhost:8000".

Definition default_headers : gmap string string :=
  {[ "Content-Type" := "application/json" ]}.

(** [localStorage.getItem]: the stored string, or [null]. *)
Definition getItem (key : string) : M world jsval :=
  gets (fun w =>
          match localStorage w !! key with
          | Some s => VStr s
          | None => VNull
          end).

(** [localStorage.setItem]: the value is stored as a string. *)
Definition setItem (key : string) (value : jsval) : M world unit :=
  modify (set_localStorage (insert key (to_string value))).

Definition removeItem (key : string) : M world unit :=
  modify (set_localStorage (delete key)).

Definition set_header (name value : string) (config : request) : request :=
  {| method := method config; url := url config;
     headers := <[name := value]> (headers config); data := data config |}.

(** The request interceptor: attach the token. Being the only
    interceptor, its rejection handler is never run. *)
Definition attach_token (config : request) : M world request :=
  token <- getItem "token";;
  if truthy token
  then ret (set_header "Authorization" ("Bearer " +:+ to_string token) config)
  else ret config.

(** The adapter: the request goes to the server and is logged with its
    answer. *)
Definition exchange (config : request) (w : world) : option response * world :=
  let '(answer, s') := serve config (backend w) in
  (answer, {| localStorage := localStorage w;
              network := network w ++ [(config, answer)];
              backend := s'; console := console w |}).

(** A status from 200 to 299 resolves; anything else, and no answer at
    all, rejects. *)
Definition settle (answer : option response) : outcome response :=
  match answer with
  | Some resp =>
      if (200 <=? status resp) && (status resp <? 300)
      then Ret resp
      else Throw (AxiosError (Some resp))
  | None => Throw (AxiosError None)
  end.

Definition dispatch (config : request) : M world response :=
  fun w =>
    let '(answer, w') := exchange config w in
    (settle answer, w').

(** A request of the [api] instance: the headers given with the call
    override the instance's defaults. *)
Definition api_request (m : http_method) (path : string) (d : payload)
    (hdrs : gmap string string) : M world response :=
  config <- attach_token {| method := m; url := API_URL +:+ path;
                            headers := hdrs ∪ default_headers; data := d |};;
  dispatch config.

Definition api_get (path : string) : M world response :=
  api_request GET path NoBody ∅.

Definition api_post (path : string) (d : payload) (hdrs : gmap string string)
    : M world response :=
  api_request POST path d hdrs.

Definition api_put (path : string) (d : payload) : M world response :=
  api_request PUT path d ∅.

Definition api_delete (path : string) : M world response :=
  api_request DELETE path NoBody ∅.

Definition login (username password : string) : M world jsval :=
  let formData := FormData [("username", username); ("password", password)] in
  response <- api_post "/token" formData
                {[ "Content-Type" := "multipart/form-data" ]};;
  access_token <- get_prop (body response) "access_token";;
  (if truthy access_token then setItem "token" access_token else ret tt);;;
  ret (body response).

Definition register (email password : jsval) : M world jsval :=
  response <- api_post "/register"
                (Json (VObj [("email", email); ("password", password)])) ∅;;
  ret (body response).

Definition logout : M world unit := removeItem "token".

(** A parameter with a default takes it when the argument is [undefined]. *)
Definition or_default (arg dflt : jsval) : jsval :=
  match arg with
  | VUndefined => dflt
  | _ => arg
  end.

Definition getEntries (skip limit : jsval) : M world jsval :=
  let skip := or_default skip (VNum 0) in
  let limit := or_default limit (VNum 100) in
  response <- api_get ("/entries/?skip=" +:+ to_string skip +:+
                       "&limit=" +:+ to_string limit);;
  ret (body response).

Definition getEntry (date : string) : M world jsval :=
  try_catch
    (response <- api_get ("/entries/" +:+ date);;
     ret (body response))
    (fun error =>
       match error with
       | AxiosError (Some resp) =>
           if status resp =? 404 then ret VNull else throw error
       | _ => throw error
       end).

Definition createEntry (entry : jsval) : M world jsval :=
  response <- api_post "/entries/" (Json entry) ∅;;
  ret (body response).

Definition updateEntry (date : string) (entry : jsval) : M world jsval :=
  response <- api_put ("/entries/" +:+ date) (Json entry);;
  ret (body response).

Definition deleteEntry (date : string) : M world jsval :=
  response <- api_delete ("/entries/" +:+ date);;
  ret (body response).

(** The object posted by [sendMessage]. *)
Definition message_payload (content : string) (context : jsval) : jsval :=
  let payload := [("role", VStr "user"); ("content", VStr content)] in
  if truthy context
  then VObj (payload ++ [("context", context)])
  else VObj payload.

Definition sendMessage (sessionId : jsval) (content : string) (context : jsval)
    : M world jsval :=
  let context := or_default context VNull in
  let payload := message_payload content context in
  response <- api_post ("/chat/" +:+ to_string sessionId) (Json payload) ∅;;
  ret (body response).

Definition getChatHistory (sessionId : jsval) : M world jsval :=
  response <- api_get ("/chat/" +:+ to_string sessionId +:+ "/messages");;
  ret (body response).

Definition getChatSessions : M world jsval :=
  response <- api_get "/chat/sessions";;
  ret (body response).

Definition createChatSession (title : jsval) : M world jsval :=
  let title := or_default title (VStr "New Chat") in
  response <- api_post "/chat/sessions" (Json (VObj [("title", title)])) ∅;;
  ret (body response).

Definition deleteChatSession (sessionId : jsval) : M world jsval :=
  response <- api_delete ("/chat/sessions/" +:+ to_string sessionId);;
  ret (body response).
End Client.
End Api.

(** ** The collaborative editor (AITalk.jsx) *)

Module AITalk.
Section Component.
Context `{Server}.

(** The component's React state. [title] and [content] hold what the
    editor shows, [chatMessages] the array of message objects. *)
Record state : Type := State {
  content : jsval;
  title : jsval;
  isSaving : bool;
  entryExists : bool;
  chatSessionId : jsval;
  chatMessages : list jsval;
  userInput : string;
  isAiThinking : bool
}.

Definition initial : state :=
  {| content := VStr ""; title := VStr "My Journal Entry"; isSaving := false;
     entryExists := false; chatSessionId := VNull; chatMessages := [];
     userInput := ""; isAiThinking := false |}.

Definition setContent (v : jsval) (st : state) : state :=
  {| content := v; title := title st; isSaving := isSaving st;
     entryExists := entryExists st; chatSessionId := chatSessionId st;
     chatMessages := chatMessages st; userInput := userInput st;
     isAiThinking := isAiThinking st |}.

Definition setTitle (v : jsval) (st : state) : state :=
  {| content := content st; title := v; isSaving := isSaving st;
     entryExists := entryExists st; chatSessionId := chatSessionId st;
     chatMessages := chatMessages st; userInput := userInput st;
     isAiThinking := isAiThinking st |}.

Definition setIsSaving (b : bool) (st : state) : state :=
  {| content := content st; title := title st; isSaving := b;
     entryExists := entryExists st; chatSessionId := chatSessionId st;
     chatMessages := chatMessages st; userInput := userInput st;
     isAiThinking := isAiThinking st |}.

Definition setEntryExists (b : bool) (st : state) : state :=
  {| content := content st; title := title st; isSaving := isSaving st;
     entryExists := b; chatSessionId := chatSessionId st;
     chatMessages := chatMessages st; userInput := userInput st;
     isAiThinking := isAiThinking st |}.

Definition setChatSessionId (v : jsval) (st : state) : state :=
  {| content := content st; title := title st; isSaving := isSaving st;
     entryExists := entryExists st; chatSessionId := v;
     chatMessages := chatMessages st; userInput := userInput st;
     isAiThinking := isAiThinking st |}.

(** [setChatMessages(f)]: a functional update acts on the latest state. *)
Definition setChatMessages (f : list jsval -> list jsval) (st : state) : state :=
  {| content := content st; title := title st; isSaving := isSaving st;
     entryExists := entryExists st; chatSessionId := chatSessionId st;
     chatMessages := f (chatMessages st); userInput := userInput st;
     isAiThinking := isAiThinking st |}.

Definition setUserInput (s : string) (st : state) : state :=
  {| content := content st; title := title st; isSaving := isSaving st;
     entryExists := entryExists st; chatSessionId := chatSessionId st;
     chatMessages := chatMessages st; userInput := s;
     isAiThinking := isAiThinking st |}.

Definition setIsAiThinking (b : bool) (st : state) : state :=
  {| content := content st; title := title st; isSaving := isSaving st;
     entryExists := entryExists st; chatSessionId := chatSessionId st;
     chatMessages := chatMessages st; userInput := userInput st;
     isAiThinking := b |}.

(** [a || b]. *)
Definition js_or (a b : jsval) : jsval := if truthy a then a else b.

(** The history endpoint answers a JSON array of messages; a body that is
    not an array is outside that interface and is read as no messages. *)
Definition elements_of (v : jsval) : list jsval :=
  match v with
  | VArr elems => elems
  | _ => []
  end.

(** A handler closes over the state of the render it was created in
    ([snap]) and over the [selectedDate] prop; its setters act on the
    running state. *)
Definition fetchEntry (selectedDate : string) : M (state * world) unit :=
  try_catch
    (entry <- on_snd (Api.getEntry selectedDate);;
     if truthy entry
     then
       entry_content <- get_prop entry "content";;
       on_fst (setContent (js_or entry_content (VStr "")));;;
       entry_title <- get_prop entry "title";;
       on_fst (setTitle (js_or entry_title (VStr "My Journal Entry")));;;
       on_fst (setEntryExists true)
     else
       on_fst (setEntryExists false);;;
       on_fst (setContent (VStr ""));;;
       on_fst (setTitle (VStr "My Journal Entry")))
    (fun error => on_snd (console_error "Failed to fetch entry:")).

Definition greeting : jsval :=
  VObj [("role", VStr "model");
        ("content", VStr "Hi! I'm here to help you write your journal entry. Feel free to ask for suggestions, improvements, or just chat about your day.")].

Definition createNewSession (selectedDate storageKey : string)
    : M (state * world) unit :=
  try_catch
    (session <- on_snd (Api.createChatSession (VStr ("Journal: " +:+ selectedDate)));;
     session_id <- get_prop session "id";;
     on_fst (setChatSessionId session_id);;;
     on_snd (Api.setItem storageKey session_id);;;
     on_fst (setChatMessages (fun _ => [greeting])))
    (fun error => on_snd (console_error "Failed to create chat session:")).

(** [createNewSession] is called without [await]; it never rejects, and
    its effects are taken in sequence. *)
Definition initializeChatSession (selectedDate : string) : M (state * world) unit :=
  let storageKey := "chat_session_" +:+ selectedDate in
  storedSessionId <- on_snd (Api.getItem storageKey);;
  if truthy storedSessionId
  then
    on_fst (setChatSessionId (parseInt (to_string storedSessionId)));;;
    try_catch
      (history <- on_snd (Api.getChatHistory storedSessionId);;
       on_fst (setChatMessages (fun _ => elements_of history)))
      (fun error =>
         on_snd (console_error "Failed to load chat history, creating new session");;;
         createNewSession selectedDate storageKey)
  else createNewSession selectedDate storageKey.

(** The mood literal of [handleSave], U+1F60A. *)
Definition smiling_face : string := bytes [240; 159; 152; 138]%nat.

Definition handleSave (selectedDate : string) (snap : state) : M (state * world) unit :=
  on_fst (setIsSaving true);;;
  try_finally
    (try_catch
       (let entryData :=
          VObj [("date", VStr selectedDate); ("title", title snap);
                ("content", content snap); ("mood", VStr smiling_face);
                ("audio_url", VNull)] in
        if entryExists snap
        then
          _ <- on_snd (Api.updateEntry selectedDate entryData);;
          ret tt
        else
          _ <- on_snd (Api.createEntry entryData);;
          on_fst (setEntryExists true))
       (fun error => on_snd (console_error "Failed to save entry:")))
    (on_fst (setIsSaving false)).

(** The context assembled from the document, line 121. *)
Definition document_context (title content : jsval) : string :=
  "Current Journal Entry:" +:+ nl +:+ "Title: " +:+ to_string title +:+ nl +:+
  "Content: " +:+ to_string content.

Definition fallback_message : jsval :=
  VObj [("role", VStr "model");
        ("content", VStr "Sorry, I encountered an error. Please try again.")].

(** [e.preventDefault()] acts on the DOM event alone and is left out.

    The updater that appends the reply, [prev => [...prev, {role: 'model',
    content: response.content}]], reads [response.content] when React runs
    it, after the handler's [try] is over. The [try] therefore only hands
    the response over; a [TypeError] of that read is caught by no one:
    nothing is logged, no fallback is shown, and the run ends in the error,
    which surfaces at render. *)
Definition handleSendMessage (snap : state) : M (state * world) unit :=
  if negb (truthy (VStr (trim (userInput snap)))) || negb (truthy (chatSessionId snap))
  then ret tt
  else
    let newMessage := [("role", VStr "user"); ("content", VStr (userInput snap))] in
    on_fst (setChatMessages (fun prev => prev ++ [VObj newMessage]));;;
    on_fst (setUserInput "");;;
    on_fst (setIsAiThinking true);;;
    pending <-
      try_finally
        (try_catch
           (let context := document_context (title snap) (content snap) in
            response <- on_snd (Api.sendMessage (chatSessionId snap) (userInput snap)
                                  (VStr context));;
            ret (Some response))
           (fun error =>
              on_snd (console_error "Failed to send message:");;;
              on_fst (setChatMessages (fun prev => prev ++ [fallback_message]));;;
              ret None))
        (on_fst (setIsAiThinking false));;
    match pending with
    | Some response =>
        response_content <- get_prop response "content";;
        on_fst (setChatMessages (fun prev =>
          prev ++ [VObj [("role", VStr "model"); ("content", response_content)]]))
    | None => ret tt
    end.

End Component.
End AITalk.

(** ** The standalone chat (ChatInterface.jsx) *)

Module ChatInterface.
Section Component.
Context `{Server}.

(** A [Date]: the clock's reading in milliseconds for [new Date()], or
    the argument it was built from for [new Date(v)]. *)
Inductive jsdate : Type :=
  | DateAt (ms : Z)
  | DateOf (v : jsval).

(** A message of the view; [showSuggestions] is [undefined] when the
    object literal leaves it out. *)
Record message : Type := Message {
  id : jsval;
  role : string;
  content : jsval;
  timestamp : jsdate;
  showSuggestions : jsval
}.

Record state : Type := State {
  messages : list message;
  inputMessage : string;
  isMenuCollapsed : bool;
  isLoading : bool;
  sessions : list jsval;
  currentSessionId : jsval
}.

Definition initial : state :=
  {| messages := []; inputMessage := ""; isMenuCollapsed := false;
     isLoading := false; sessions := []; currentSessionId := VNull |}.

Definition setMessages (f : list message -> list message) (st : state) : state :=
  {| messages := f (messages st); inputMessage := inputMessage st;
     isMenuCollapsed := isMenuCollapsed st; isLoading := isLoading st;
     sessions := sessions st; currentSessionId := currentSessionId st |}.

Definition setInputMessage (s : string) (st : state) : state :=
  {| messages := messages st; inputMessage := s;
     isMenuCollapsed := isMenuCollapsed st; isLoading := isLoading st;
     sessions := sessions st; currentSessionId := currentSessionId st |}.

Definition setIsLoading (b : bool) (st : state) : state :=
  {| messages := messages st; inputMessage := inputMessage st;
     isMenuCollapsed := isMenuCollapsed st; isLoading := b;
     sessions := sessions st; currentSessionId := currentSessionId st |}.

Definition setSessions (l : list jsval) (st : state) : state :=
  {| messages := messages st; inputMessage := inputMessage st;
     isMenuCollapsed := isMenuCollapsed st; isLoading := isLoading st;
     sessions := l; currentSessionId := currentSessionId st |}.

Definition setCurrentSessionId (v : jsval) (st : state) : state :=
  {| messages := messages st; inputMessage := inputMessage st;
     isMenuCollapsed := isMenuCollapsed st; isLoading := isLoading st;
     sessions := sessions st; currentSessionId := v |}.

(** The first half of [handleSendMessage]: the session to send to, or
    [None] for the early [return] when none could be created. *)
Definition ensure_session (snap : state) : M (state * world) (option jsval) :=
  if negb (truthy (currentSessionId snap))
  then
    try_catch
      (newSession <- on_snd (Api.createChatSession VUndefined);;
       on_fst (setSessions (newSession :: sessions snap));;;
       new_id <- get_prop newSession "id";;
       on_fst (setCurrentSessionId new_id);;;
       ret (Some new_id))
      (fun error =>
         on_snd (console_error "Failed to create session");;;
         ret None)
  else ret (Some (currentSessionId snap)).

(** The second half of [handleSendMessage]: show the user's message, send
    it to the session and show the reply. [now] and [today] are the clock's
    readings by [Date.now()] and [new Date()]. *)
Definition deliver (activeSessionId : jsval) (messageToSend : string) (now today : Z)
    : M (state * world) unit :=
  let newMessage :=
    {| id := VNum now; role := "user"; content := VStr messageToSend;
       timestamp := DateAt today; showSuggestions := VUndefined |} in
  on_fst (setMessages (fun prev => prev ++ [newMessage]));;;
  on_fst (setInputMessage "");;;
  on_fst (setIsLoading true);;;
  try_finally
    (try_catch
       (response <- on_snd (Api.sendMessage activeSessionId messageToSend VUndefined);;
        response_id <- get_prop response "id";;
        response_content <- get_prop response "content";;
        response_timestamp <- get_prop response "timestamp";;
        let aiMessage :=
          {| id := response_id; role := "assistant"; content := response_content;
             timestamp := DateOf response_timestamp;
             showSuggestions := VUndefined |} in
        on_fst (setMessages (fun prev => prev ++ [aiMessage])))
       (fun error => on_snd (console_error "Failed to send message")))
    (on_fst (setIsLoading false)).

(** [customMessage] is the handler's argument (a click passes the event
    object, a key press nothing). *)
Definition handleSendMessage (customMessage : jsval) (now today : Z) (snap : state)
    : M (state * world) unit :=
  let messageToSend :=
    match customMessage with
    | VStr s => s
    | _ => inputMessage snap
    end in
  if negb (truthy (VStr messageToSend)) || is_empty (trim messageToSend)
     || isLoading snap
  then ret tt
  else
    session <- ensure_session snap;;
    match session with
    | None => ret tt
    | Some activeSessionId => deliver activeSessionId messageToSend now today
    end.
Definition welcome (today : Z) : message :=
  {| id := VStr "welcome"; role := "assistant";
     content := VStr "Hello! I'm your AI journaling assistant. How are you feeling today? Would you like to reflect on something?";
     timestamp := DateAt today; showSuggestions := VBool true |}.

(** [today] is the clock's reading by [new Date()]. *)
Definition handleNewChat (today : Z) (snap : state) : M (state * world) unit :=
  try_catch
    (newSession <- on_snd (Api.createChatSession VUndefined);;
     on_fst (setSessions (newSession :: sessions snap));;;
     new_id <- get_prop newSession "id";;
     on_fst (setCurrentSessionId new_id);;;
     on_fst (setMessages (fun _ => [welcome today])))
    (fun error => on_snd (console_error "Failed to create new chat")).

(** [sessions.filter(s => s.id !== sessionId)]. *)
Fixpoint without_session {S} (sessionId : jsval) (l : list jsval) : M S (list jsval) :=
  match l with
  | [] => ret []
  | s :: l' =>
      s_id <- get_prop s "id";;
      rest <- without_session sessionId l';;
      ret (if negb (strict_eq s_id sessionId) then s :: rest else rest)
  end.

(** [e.stopPropagation()] acts on the DOM event alone and is left out;
    [confirmed] is the answer of [window.confirm]. *)
Definition handleDeleteChat (confirmed : bool) (sessionId : jsval) (snap : state)
    : M (state * world) unit :=
  if confirmed
  then
    try_catch
      (_ <- on_snd (Api.deleteChatSession sessionId);;
       updatedSessions <- without_session sessionId (sessions snap);;
       on_fst (setSessions updatedSessions);;;
       if strict_eq (currentSessionId snap) sessionId
       then
         (match updatedSessions with
          | first :: _ =>
              first_id <- get_prop first "id";;
              on_fst (setCurrentSessionId first_id)
          | [] => on_fst (setCurrentSessionId VNull)
          end);;;
         (match updatedSessions with
          | [] => on_fst (setMessages (fun _ => []))
          | _ :: _ => ret tt
          end)
       else ret tt)
      (fun error => on_snd (console_error "Failed to delete chat"))
  else ret tt.

(** One message of the history as the view shows it. *)
Definition format_message {S} (msg : jsval) : M S message :=
  msg_id <- get_prop msg "id";;
  msg_role <- get_prop msg "role";;
  msg_content <- get_prop msg "content";;
  msg_timestamp <- get_prop msg "timestamp";;
  ret {| id := msg_id;
         role := if strict_eq msg_role (VStr "model") then "assistant" else "user";
         content := msg_content; timestamp := DateOf msg_timestamp;
         showSuggestions := VUndefined |}.

Fixpoint format_messages {S} (l : list jsval) : M S (list message) :=
  match l with
  | [] => ret []
  | msg :: l' =>
      m <- format_message msg;;
      rest <- format_messages l';;
      ret (m :: rest)
  end.

(** [history.map(...)]: only an array has a [map] to call. *)
Definition map_history {S} (history : jsval) : M S (list message) :=
  match history with
  | VArr elems => format_messages elems
  | _ => throw TypeError
  end.

Definition loadChatHistory (today : Z) (sessionId : jsval) : M (state * world) unit :=
  try_catch
    (history <- on_snd (Api.getChatHistory sessionId);;
     formattedMessages <- map_history history;;
     match formattedMessages with
     | [] => on_fst (setMessages (fun _ => [welcome today]))
     | _ :: _ => on_fst (setMessages (fun _ => formattedMessages))
     end)
    (fun error => on_snd (console_error "Failed to load chat history")).

(** [key] and [shiftKey] are the fields of the keyboard event;
    [e.preventDefault()] is left out. *)
Definition handleKeyPress (key : string) (shiftKey : bool) (now today : Z) (snap : state)
    : M (state * world) unit :=
  if String.eqb key "Enter" && negb shiftKey
  then handleSendMessage VUndefined now today snap
  else ret tt.
End Component.
End ChatInterface.

(** ** Routing between the views (App.jsx) *)

Module App.

Record state : Type := State {
  isLoggedIn : bool;
  currentPage : string;
  selectedDate : jsval;
  returnPage : string
}.

Definition initial : state :=
  {| isLoggedIn := false; currentPage := "chat"; selectedDate := VNull;
     returnPage := "chat" |}.

Definition handleLogin (st : state) : state :=
  {| isLoggedIn := true; currentPage := "chat";
     selectedDate := selectedDate st; returnPage := returnPage st |}.

Definition handleLogout (st : state) : state :=
  {| isLoggedIn := false; currentPage := "chat";
     selectedDate := selectedDate st; returnPage := returnPage st |}.

Definition handleNavigateToCalendar (st : state) : state :=
  {| isLoggedIn := isLoggedIn st; currentPage := "calendar";
     selectedDate := selectedDate st; returnPage := returnPage st |}.

Definition handleBackToChat (st : state) : state :=
  {| isLoggedIn := isLoggedIn st; currentPage := "chat";
     selectedDate := selectedDate st; returnPage := returnPage st |}.

Definition handleOpenAITalk (date : jsval) (st : state) : state :=
  {| isLoggedIn := isLoggedIn st; currentPage := "aitalk";
     selectedDate := date; returnPage := "calendar" |}.

(** [s.split('T')[0]]: the part of [s] before its first T. *)
Fixpoint before_T (s : string) : string :=
  match s with
  | EmptyString => EmptyString
  | String a s' => if Ascii.eqb a "T" then EmptyString else String a (before_T s')
  end.

(** [iso] is the clock's reading by [new Date().toISOString()]. *)
Definition handleStartNewJournal (iso : string) (st : state) : state :=
  let today := before_T iso in
  {| isLoggedIn := isLoggedIn st; currentPage := "aitalk";
     selectedDate := VStr today; returnPage := "chat" |}.

Definition handleBackFromAITalk (st : state) : state :=
  {| isLoggedIn := isLoggedIn st; currentPage := returnPage st;
     selectedDate := selectedDate st; returnPage := returnPage st |}.

(** What the component renders. *)
Inductive view : Type :=
  | Landing
  | Editor (date : jsval)
  | Calendar
  | Chat.

Definition render (st : state) : view :=
  if negb (isLoggedIn st) then Landing
  else if String.eqb (currentPage st) "aitalk" then Editor (selectedDate st)
  else if String.eqb (currentPage st) "calendar" then Calendar
  else Chat.

(** The callbacks the views are given. *)
Inductive event : Type :=
  | Login
  | Logout
  | NavigateToCalendar
  | BackToChat
  | OpenAITalk (date : jsval)
  | StartNewJournal (iso : string)
  | BackFromAITalk.

Definition handle (ev : event) (st : state) : state :=
  match ev with
  | Login => handleLogin st
  | Logout => handleLogout st
  | NavigateToCalendar => handleNavigateToCalendar st
  | BackToChat => handleBackToChat st
  | OpenAITalk date => handleOpenAITalk date st
  | StartNewJournal iso => handleStartNewJournal iso st
  | BackFromAITalk => handleBackFromAITalk st
  end.

(** The state after a run of events, the first of the list first. *)
Definition run (events : list event) (st : state) : state :=
  fold_left (fun st ev => handle ev st) events st.

End App.

(** ** Servers to run the client against *)

(** A server that plays a script: one answer per request, in order, and no
    answer at all once the script is over. *)
Definition scripted : Server := {|
  SState := list (option response);
  serve := fun _ script =>
    match script with
    | answer :: rest => (answer, rest)
    | [] => (None, [])
    end
|}.

(** A browser with the given storage, facing a scripted server. *)
Definition browser (storage : gmap string string) (script : list (option response))
    : @world scripted :=
  @World scripted storage [] script [].

(** ** Specification-side definitions *)

(** The context string in the specification's words (section 4.4), to be
    compared with [AITalk.document_context]. *)
Definition spec_context (t c : string) : string :=
  "current document state: title=" +:+ t +:+ ", content=" +:+ c.

(** [sub] occurs in [s]. *)
Definition occurs_in (sub s : string) : Prop :=
  exists before after, s = before +:+ sub +:+ after.

(** A logged exchange whose answer resolved. *)
Definition resolved (answer : option response) : bool :=
  match answer with
  | Some resp => (200 <=? status resp) && (status resp <? 300)
  | None => false
  end.

(** Between the worlds [w] and [w'] the client made exactly one exchange
    with the server, and the request it sent satisfies [P]. *)
Definition exchanges `{Server} (w w' : world) (P : request -> Prop) : Prop :=
  exists req answer,
    network w' = network w ++ [(req, answer)] /\ P req.

(** The one exchange was a POST whose JSON body is the object with these
    fields. *)
Definition posts `{Server} (w w' : world) (fields : list (string * jsval)) : Prop :=
  exchanges w w' (fun req => method req = POST /\ data req = Json (VObj fields)).

(** The message objects the editor appends. *)
Definition user_message (text : string) : jsval :=
  VObj [("role", VStr "user"); ("content", VStr text)].

Definition model_message (text : jsval) : jsval :=
  VObj [("role", VStr "model"); ("content", text)].

(** The world after [console.error(msg, ...)]. *)
Definition logged `{Server} (msg : string) (w : world) : world :=
  snd (console_error msg w).

(** The state once the user's message is shown and the reply awaited. *)
Definition awaiting_reply (snap st : AITalk.state) : AITalk.state :=
  AITalk.setIsAiThinking true
    (AITalk.setUserInput ""
       (AITalk.setChatMessages (fun prev => prev ++ [user_message (AITalk.userInput snap)]) st)).

(** An editor with a document and a typed message, attached to session 1. *)
Definition editing (doc_title doc_content input : string) : AITalk.state :=
  AITalk.setUserInput input
    (AITalk.setChatSessionId (VNum 1)
       (AITalk.setContent (VStr doc_content)
          (AITalk.setTitle (VStr doc_title) AITalk.initial))).

(** A logged exchange that is a create of an entry. *)
Definition is_create (x : request * option response) : bool :=
  match method (fst x) with
  | POST => String.eqb (url (fst x)) (Api.API_URL +:+ "/entries/")
  | _ => false
  end.


Definition successful_creates (log : list (request * option response)) : nat :=
  length (filter (fun x => is_create x && resolved (snd x) = true) log).


Definition entry_data (date : string) (st : AITalk.state) : jsval :=
  VObj [("date", VStr date); ("title", AITalk.title st);
        ("content", AITalk.content st); ("mood", VStr AITalk.smiling_face);
        ("audio_url", VNull)].

(** The user's message as the standalone chat shows it. *)
Definition shown_message (text : string) (now today : Z) : ChatInterface.message :=
  {| ChatInterface.id := VNum now; ChatInterface.role := "user";
     ChatInterface.content := VStr text;
     ChatInterface.timestamp := ChatInterface.DateAt today;
     ChatInterface.showSuggestions := VUndefined |}.

(** The message the handler sends: its string argument, else the input. *)
Definition message_to_send (customMessage : jsval) (snap : ChatInterface.state) : string :=
  match customMessage with
  | VStr s => s
  | _ => ChatInterface.inputMessage snap
  end.

(** [s.id] of a listed session, [undefined] where there is nothing to read. *)
Definition session_id (s : jsval) : jsval := default VUndefined (prop s "id").

(** A value that has properties to read: anything but [null] and [undefined]. *)
Definition readable (v : jsval) : Prop := v <> VNull /\ v <> VUndefined.

(** A message of the history as the standalone chat shows it. *)
Definition shown_history_message (msg : jsval) : ChatInterface.message :=
  {| ChatInterface.id := default VUndefined (prop msg "id");
     ChatInterface.role :=
       if strict_eq (default VUndefined (prop msg "role")) (VStr "model")
       then "assistant" else "user";
     ChatInterface.content := default VUndefined (prop msg "content");
     ChatInterface.timestamp :=
       ChatInterface.DateOf (default VUndefined (prop msg "timestamp"));
     ChatInterface.showSuggestions := VUndefined |}.

(** The reply of the server as the standalone chat shows it. *)
Definition shown_reply (reply_id reply_content reply_timestamp : jsval)
    : ChatInterface.message :=
  {| ChatInterface.id := reply_id; ChatInterface.role := "assistant";
     ChatInterface.content := reply_content;
     ChatInterface.timestamp := ChatInterface.DateOf reply_timestamp;
     ChatInterface.showSuggestions := VUndefined |}.

(** The state a confirmed and accepted deletion leaves. *)
Definition after_delete (sessionId : jsval) (snap st : ChatInterface.state)
    : ChatInterface.state :=
  let remaining :=
    filter (fun s => strict_eq (session_id s) sessionId = false)
      (ChatInterface.sessions snap) in
  let listed := ChatInterface.setSessions remaining st in
  if strict_eq (ChatInterface.currentSessionId snap) sessionId
  then
    match remaining with
    | first :: _ => ChatInterface.setCurrentSessionId (session_id first) listed
    | [] =>
        ChatInterface.setMessages (fun _ => [])
          (ChatInterface.setCurrentSessionId VNull listed)
    end
  else listed.

(** [s] has no T. *)
Fixpoint no_T (s : string) : bool :=
  match s with
  | EmptyString => true
  | String a s' => negb (Ascii.eqb a "T") && no_T s'
  end.

(** The return page is one of the two pages the editor is opened from. *)
Definition returns_to_a_page (st : App.state) : Prop :=
  App.returnPage st = "chat" \/ App.returnPage st = "calendar".

(** The run [r] of a call of the client, started in [w], was one request
    of this method, path and payload: it returned the data of the response
    when the request resolved and threw the rejection on when it did not. *)
Definition calls `{Server} (r : outcome jsval * world) (w : world)
    (m : http_method) (path : string) (d : payload) : Prop :=
  exists req,
    method req = m /\ url req = Api.API_URL +:+ path /\ data req = d
    /\ r = (match Api.settle (fst (Api.exchange req w)) with
            | Ret resp => Ret (body resp)
            | Throw e => Throw e
            end, snd (Api.exchange req w)).













(** ** The API client: requests, headers and payloads *)

(** Run a handler: unfold the combinators of the monad down to the calls of
    the API client. *)
Ltac run_handler :=
  unfold try_finally, try_catch, bind, on_fst, on_snd, modify, ret, get_prop,
    logged, console_error;
  simpl.

Lemma append_assoc (a b c : string) : (a +:+ b) +:+ c = a +:+ (b +:+ c).
Proof.
  induction a as [|x a IH]; [reflexivity|].
  change (String x ((a +:+ b) +:+ c) = String x (a +:+ (b +:+ c))).
  now rewrite IH.
Qed.

Lemma append_nil_r (a : string) : a +:+ "" = a.
Proof.
  induction a as [|x a IH]; [reflexivity|].
  change (String x (a +:+ "") = String x a). now rewrite IH.
Qed.

Section ApiFacts.
Context `{Server}.

Lemma exchange_log config w :
  network (snd (Api.exchange config w)) =
    network w ++ [(config, fst (Api.exchange config w))]
  /\ localStorage (snd (Api.exchange config w)) = localStorage w
  /\ console (snd (Api.exchange config w)) = console w.
Proof.
  unfold Api.exchange. destruct (serve config (backend w)) as [answer s'].
  simpl. auto.
Qed.

Lemma attach_token_run config w :
  exists req,
    Api.attach_token config w = (Ret req, w)
    /\ method req = method config /\ url req = url config
    /\ data req = data config
    /\ headers req =
         match localStorage w !! "token" with
         | Some t =>
             if is_empty t then headers config
             else <["Authorization" := "Bearer " +:+ t]> (headers config)
         | None => headers config
         end.
Proof.
  unfold Api.attach_token, Api.getItem, bind, gets, ret.
  destruct (localStorage w !! "token") as [t|] eqn:Ht; simpl.
  - destruct t as [|a t]; simpl; eexists; repeat split; reflexivity.
  - eexists; repeat split; reflexivity.
Qed.

(** Every call of the client is one exchange with the server. *)
Lemma api_request_run m path d hdrs w :
  exists req,
    Api.api_request m path d hdrs w =
      (Api.settle (fst (Api.exchange req w)), snd (Api.exchange req w))
    /\ method req = m /\ url req = Api.API_URL +:+ path /\ data req = d
    /\ headers req =
         match localStorage w !! "token" with
         | Some t =>
             if is_empty t then hdrs ∪ Api.default_headers
             else <["Authorization" := "Bearer " +:+ t]> (hdrs ∪ Api.default_headers)
         | None => hdrs ∪ Api.default_headers
         end.
Proof.
  unfold Api.api_request, bind.
  destruct (attach_token_run
              {| method := m; url := Api.API_URL +:+ path;
                 headers := hdrs ∪ Api.default_headers; data := d |} w)
    as (req & Hrun & Hm & Hu & Hd & Hh).
  exists req. rewrite Hrun. unfold Api.dispatch.
  destruct (Api.exchange req w) as [answer w'] eqn:Hx. simpl in *.
  repeat split; assumption.
Qed.

Lemma sendMessage_run sessionId content context w :
  exists req,
    Api.sendMessage sessionId content context w =
      (match Api.settle (fst (Api.exchange req w)) with
       | Ret resp => Ret (body resp)
       | Throw e => Throw e
       end, snd (Api.exchange req w))
    /\ method req = POST
    /\ url req = Api.API_URL +:+ "/chat/" +:+ to_string sessionId
    /\ data req = Json (Api.message_payload content (Api.or_default context VNull)).
Proof.
  unfold Api.sendMessage, Api.api_post, bind.
  destruct (api_request_run POST ("/chat/" +:+ to_string sessionId)
              (Json (Api.message_payload content (Api.or_default context VNull)))
              ∅ w) as (req & Hrun & Hm & Hu & Hd & _).
  exists req. rewrite Hrun.
  destruct (Api.settle (fst (Api.exchange req w))); simpl; auto.
Qed.

Lemma truthy_or_default_null context :
  truthy (Api.or_default context VNull) = truthy context.
Proof. destruct context; reflexivity. Qed.

Lemma sendMessage_posts sessionId content context w :
  posts w (snd (Api.sendMessage sessionId content context w))
    (if truthy context
     then [("role", VStr "user"); ("content", VStr content); ("context", context)]
     else [("role", VStr "user"); ("content", VStr content)]).
Proof.
  destruct (sendMessage_run sessionId content context w)
    as (req & Hrun & Hm & _ & Hd).
  exists req, (fst (Api.exchange req w)). rewrite Hrun. simpl.
  split; [apply exchange_log|]. split; [assumption|].
  rewrite Hd. unfold Api.message_payload.
  rewrite truthy_or_default_null.
  destruct (truthy context) eqn:Ht; [|reflexivity].
  destruct context; try discriminate Ht; reflexivity.
Qed.

(** C9. A call of [sendMessage] whose context is falsy (undefined, null,
    false, 0, NaN or the empty string) posts exactly one request, and its
    payload has the fields role and content only: no context field. *)
Theorem sendMessage_falsy_context_omitted sessionId content context w :
  truthy context = false ->
  posts w (snd (Api.sendMessage sessionId content context w))
    [("role", VStr "user"); ("content", VStr content)].
Proof.
  intros Hfalsy.
  pose proof (sendMessage_posts sessionId content context w) as Hposts.
  now rewrite Hfalsy in Hposts.
Qed.
End ApiFacts.

(** At the empty string, which is a context that is present and falsy. *)
Lemma sendMessage_falsy_context_witness :
  truthy (VStr "") = false
  /\ posts (browser ∅ [None])
        (snd (Api.sendMessage (VNum 1) "hello" (VStr "") (browser ∅ [None])))
        [("role", VStr "user"); ("content", VStr "hello")].
Proof.
  split; [reflexivity|].
  apply (@sendMessage_falsy_context_omitted scripted); reflexivity.
Defined.

Section ContextField.
Context `{Server}.

Lemma document_context_occurs t c :
  occurs_in t (AITalk.document_context (VStr t) (VStr c))
  /\ occurs_in c (AITalk.document_context (VStr t) (VStr c)).
Proof.
  unfold AITalk.document_context, occurs_in. simpl to_string. split.
  - exists ("Current Journal Entry:" +:+ nl +:+ "Title: "),
           (nl +:+ "Content: " +:+ c).
    reflexivity.
  - exists ("Current Journal Entry:" +:+ nl +:+ "Title: " +:+ t +:+ nl +:+ "Content: "), "".
    rewrite append_nil_r. rewrite !append_assoc. reflexivity.
Qed.

Lemma document_context_nonempty t c :
  truthy (VStr (AITalk.document_context t c)) = true.
Proof. reflexivity. Qed.

(** C3, as amended. A call of [sendMessage] with no context ([undefined],
    the default, or [null]) posts a payload of role and content only; with
    a non-empty context string the payload's context field is that string;
    and the context the editor builds from a title and a content is such a
    string, in which both occur. *)
Theorem sendMessage_context_field sessionId content w :
  posts w (snd (Api.sendMessage sessionId content VUndefined w))
    [("role", VStr "user"); ("content", VStr content)]
  /\ posts w (snd (Api.sendMessage sessionId content VNull w))
    [("role", VStr "user"); ("content", VStr content)]
  /\ (forall a s,
        posts w (snd (Api.sendMessage sessionId content (VStr (String a s)) w))
          [("role", VStr "user"); ("content", VStr content);
           ("context", VStr (String a s))])
  /\ (forall t c,
        posts w (snd (Api.sendMessage sessionId content
                 (VStr (AITalk.document_context (VStr t) (VStr c))) w))
          [("role", VStr "user"); ("content", VStr content);
           ("context", VStr (AITalk.document_context (VStr t) (VStr c)))]
        /\ occurs_in t (AITalk.document_context (VStr t) (VStr c))
        /\ occurs_in c (AITalk.document_context (VStr t) (VStr c))).
Proof.
  repeat split.
  - apply (sendMessage_posts sessionId content VUndefined w).
  - apply (sendMessage_posts sessionId content VNull w).
  - intros a s. apply (sendMessage_posts sessionId content (VStr (String a s)) w).
  - pose proof (sendMessage_posts sessionId content
                  (VStr (AITalk.document_context (VStr t) (VStr c))) w) as Hp.
    now rewrite document_context_nonempty in Hp.
  - apply document_context_occurs.
  - apply document_context_occurs.
Qed.
End ContextField.

(** C3 as stated fails at the empty string: it is a context string that was
    supplied, and the payload posted has no context field equal to it. *)
Lemma sendMessage_empty_context_dropped :
  ~ exists fields,
      posts (browser ∅ [None])
        (snd (Api.sendMessage (VNum 1) "hello" (VStr "") (browser ∅ [None]))) fields
      /\ lookup_field "context" fields = Some (VStr "").
Proof.
  intros (fields & (req & answer & Hlog & _ & Hdata) & Hfield).
  vm_compute in Hlog. injection Hlog as Hreq _. subst req.
  simpl in Hdata. injection Hdata as <-. discriminate Hfield.
Qed.

(** ** The bearer token *)

Section Bearer.
Context `{Server}.

Lemma api_request_exchanges m path d hdrs w :
  exchanges w (snd (Api.api_request m path d hdrs w))
    (fun req =>
       method req = m /\ url req = Api.API_URL +:+ path /\ data req = d
       /\ headers req =
            match localStorage w !! "token" with
            | Some t =>
                if is_empty t then hdrs ∪ Api.default_headers
                else <["Authorization" := "Bearer " +:+ t]>
                       (hdrs ∪ Api.default_headers)
            | None => hdrs ∪ Api.default_headers
            end).
Proof.
  destruct (api_request_run m path d hdrs w) as (req & Hrun & Hm & Hu & Hd & Hh).
  exists req, (fst (Api.exchange req w)). rewrite Hrun. simpl.
  split; [apply exchange_log|]. auto.
Qed.

Lemma token_attached m path d hdrs w t :
  localStorage w !! "token" = Some t -> t <> "" ->
  exchanges w (snd (Api.api_request m path d hdrs w))
    (fun req => headers req !! "Authorization" = Some ("Bearer " +:+ t)).
Proof.
  intros Ht Hne.
  destruct (api_request_exchanges m path d hdrs w) as (req & answer & Hlog & _ & _ & _ & Hh).
  exists req, answer. split; [assumption|].
  rewrite Hh, Ht. destruct t as [|a t]; [congruence|]. simpl.
  apply lookup_insert_eq.
Qed.

(** A login that returns has stored the token it was given. *)
Lemma login_stores_token username password w response_data t :
  fst (Api.login username password w) = Ret response_data ->
  prop response_data "access_token" = Some (VStr t) -> t <> "" ->
  localStorage (snd (Api.login username password w)) !! "token" = Some t.
Proof.
  intros Hret Hprop Hne. revert Hret.
  unfold Api.login, Api.api_post, bind.
  destruct (api_request_run POST "/token"
              (FormData [("username", username); ("password", password)])
              {[ "Content-Type" := "multipart/form-data" ]} w)
    as (req & Hrun & _).
  rewrite Hrun.
  destruct (Api.settle (fst (Api.exchange req w))) as [resp|e]; [|discriminate].
  unfold get_prop.
  destruct (prop (body resp) "access_token") as [tok|] eqn:Htok;
    [|discriminate].
  destruct t as [|a t]; [congruence|].
  simpl. destruct (truthy tok) eqn:Htruthy; simpl; intros [= <-];
    rewrite Hprop in Htok; injection Htok as <-.
  - apply lookup_insert_eq.
  - discriminate Htruthy.
Qed.

(** C8. A request of the shared client carries [Authorization: Bearer
    <token>] when local storage holds a token, and exactly the headers of
    the call and of the instance (no Authorization added) when it holds
    none; after a login that was answered with an access token, every
    request carries that token. *)
Theorem bearer_token_on_every_request m path d hdrs w :
  (forall t, localStorage w !! "token" = Some t -> t <> "" ->
     exchanges w (snd (Api.api_request m path d hdrs w))
       (fun req => headers req !! "Authorization" = Some ("Bearer " +:+ t)))
  /\ (localStorage w !! "token" = None ->
     exchanges w (snd (Api.api_request m path d hdrs w))
       (fun req => headers req = hdrs ∪ Api.default_headers))
  /\ (forall username password response_data t,
        fst (Api.login username password w) = Ret response_data ->
        prop response_data "access_token" = Some (VStr t) -> t <> "" ->
        let w1 := snd (Api.login username password w) in
        exchanges w1 (snd (Api.api_request m path d hdrs w1))
          (fun req => headers req !! "Authorization" = Some ("Bearer " +:+ t))).
Proof.
  split; [|split].
  - intros t. apply token_attached.
  - intros Hnone.
    destruct (api_request_exchanges m path d hdrs w)
      as (req & answer & Hlog & _ & _ & _ & Hh).
    exists req, answer. split; [assumption|]. now rewrite Hh, Hnone.
  - intros username password response_data t Hret Hprop Hne w1.
    apply token_attached; [|assumption].
    now apply (login_stores_token username password w response_data t).
Qed.

(** A stored token that is the empty string is treated as no token; the
    client itself never stores one. *)
Remark empty_token_not_attached m path d hdrs w :
  localStorage w !! "token" = Some "" ->
  exchanges w (snd (Api.api_request m path d hdrs w))
    (fun req => headers req = hdrs ∪ Api.default_headers).
Proof.
  intros Hempty.
  destruct (api_request_exchanges m path d hdrs w)
    as (req & answer & Hlog & _ & _ & _ & Hh).
  exists req, answer. split; [assumption|]. now rewrite Hh, Hempty.
Qed.
End Bearer.

(** With a stored token, with none, and after a login answered with the
    token [abc]. *)
Lemma bearer_token_witness :
  exchanges (browser {[ "token" := "abc" ]} [None])
    (snd (Api.api_request GET "/entries/2024-01-01" NoBody ∅
               (browser {[ "token" := "abc" ]} [None])))
    (fun req => headers req !! "Authorization" = Some "Bearer abc")
  /\ exchanges (browser ∅ [None])
       (snd (Api.api_request GET "/entries/2024-01-01" NoBody ∅ (browser ∅ [None])))
       (fun req => headers req = ∅ ∪ Api.default_headers)
  /\ (let w1 := snd (Api.login "ann" "secret"
                       (browser ∅ [Some (Response 200 (VObj [("access_token", VStr "abc")]))])) in
      exchanges w1 (snd (Api.api_request GET "/entries/2024-01-01" NoBody ∅ w1))
        (fun req => headers req !! "Authorization" = Some "Bearer abc")).
Proof.
  split; [|split].
  - apply (proj1 (@bearer_token_on_every_request scripted GET "/entries/2024-01-01"
                    NoBody ∅ (browser {[ "token" := "abc" ]} [None])) "abc");
      [reflexivity | discriminate].
  - apply (proj1 (proj2 (@bearer_token_on_every_request scripted GET
                           "/entries/2024-01-01" NoBody ∅ (browser ∅ [None]))));
      reflexivity.
  - apply (proj2 (proj2 (@bearer_token_on_every_request scripted GET
                           "/entries/2024-01-01" NoBody ∅
                           (browser ∅ [Some (Response 200
                                               (VObj [("access_token", VStr "abc")]))])))
             "ann" "secret" (VObj [("access_token", VStr "abc")]) "abc");
      [reflexivity | reflexivity | discriminate].
Defined.

(** ** Entry lookup *)

Section EntryLookup.
Context `{Server}.

Lemma getEntry_run date w :
  exists req,
    method req = GET
    /\ url req = Api.API_URL +:+ "/entries/" +:+ date
    /\ Api.getEntry date w =
         (match fst (Api.exchange req w) with
          | Some resp =>
              if (200 <=? status resp) && (status resp <? 300)
              then Ret (body resp)
              else if status resp =? 404 then Ret VNull
                   else Throw (AxiosError (Some resp))
          | None => Throw (AxiosError None)
          end, snd (Api.exchange req w)).
Proof.
  unfold Api.getEntry, Api.api_get, try_catch, bind.
  destruct (api_request_run GET ("/entries/" +:+ date) NoBody ∅ w)
    as (req & Hrun & Hm & Hu & _).
  exists req. rewrite Hrun. split; [assumption|]. split; [assumption|].
  unfold Api.settle.
  destruct (fst (Api.exchange req w)) as [resp|]; [|reflexivity].
  destruct ((200 <=? status resp) && (status resp <? 300)); [reflexivity|].
  destruct (status resp =? 404); reflexivity.
Qed.

(** C6, as amended. [getEntry] asks the server for the entry of the date
    once. When the answer is a 404 it returns [null]; when the answer is a
    success it returns the data of the response; any other failure is
    thrown again as the very error the request was rejected with. So the
    result is [null] exactly when the answer is a 404 or a success whose
    data is itself [null]. *)
Theorem getEntry_null_on_404_or_null_data date w :
  exists req,
    method req = GET
    /\ url req = Api.API_URL +:+ "/entries/" +:+ date
    /\ snd (Api.getEntry date w) = snd (Api.exchange req w)
    /\ let answer := fst (Api.exchange req w) in
       (forall resp, answer = Some resp -> status resp = 404 ->
          fst (Api.getEntry date w) = Ret VNull)
       /\ (forall resp, answer = Some resp -> 200 <= status resp < 300 ->
          fst (Api.getEntry date w) = Ret (body resp))
       /\ (forall e, Api.settle answer = Throw e ->
             (forall resp, answer = Some resp -> status resp <> 404) ->
          fst (Api.getEntry date w) = Throw e)
       /\ (fst (Api.getEntry date w) = Ret VNull <->
           exists resp,
             answer = Some resp
             /\ (status resp = 404
                 \/ (200 <= status resp < 300 /\ body resp = VNull))).
Proof.
  destruct (getEntry_run date w) as (req & Hm & Hu & Hrun).
  exists req. rewrite Hrun. simpl fst. simpl snd.
  split; [assumption|]. split; [assumption|]. split; [reflexivity|].
  intros answer. subst answer.
  destruct (fst (Api.exchange req w)) as [r|].
  - split; [|split; [|split]].
    + intros resp [= <-] H404. rewrite H404. reflexivity.
    + intros resp [= <-] Hok.
      replace ((200 <=? status r) && (status r <? 300)) with true; [reflexivity|].
      symmetry. apply andb_true_iff. split; [apply Z.leb_le | apply Z.ltb_lt]; lia.
    + intros e Hsettle Hnot. unfold Api.settle in Hsettle.
      destruct ((200 <=? status r) && (status r <? 300)); [discriminate|].
      injection Hsettle as <-.
      destruct (status r =? 404) eqn:E; [|reflexivity].
      apply Z.eqb_eq in E. now destruct (Hnot r eq_refl).
    + split.
      * intros Hret. exists r. split; [reflexivity|].
        destruct ((200 <=? status r) && (status r <? 300)) eqn:Hok.
        -- apply andb_true_iff in Hok as [Hlo%Z.leb_le Hhi%Z.ltb_lt].
           injection Hret as Hbody. right. auto.
        -- destruct (status r =? 404) eqn:E; [|discriminate].
           apply Z.eqb_eq in E. auto.
      * intros (resp & [= <-] & [H404 | (Hok & Hbody)]).
        -- rewrite H404. reflexivity.
        -- replace ((200 <=? status r) && (status r <? 300)) with true;
             [now rewrite Hbody|].
           symmetry. apply andb_true_iff.
           split; [apply Z.leb_le | apply Z.ltb_lt]; lia.
  - split; [|split; [|split]].
    + intros resp [=].
    + intros resp [=].
    + intros e [= <-] _. reflexivity.
    + split; [discriminate|]. intros (resp & [=] & _).
Qed.
End EntryLookup.

(** The lookup of a date with no entry: the server answers 404. *)
Lemma getEntry_witness :
  fst (Api.getEntry "2024-01-01"
         (browser ∅ [Some (Response 404 (VObj [("detail", VStr "Entry not found")]))]))
  = Ret VNull.
Proof.
  destruct (@getEntry_null_on_404_or_null_data scripted "2024-01-01"
              (browser ∅ [Some (Response 404
                                  (VObj [("detail", VStr "Entry not found")]))]))
    as (req & _ & _ & _ & H404 & _).
  apply (H404 (Response 404 (VObj [("detail", VStr "Entry not found")])));
    reflexivity.
Defined.

(** C6 as stated fails: when the server answers 200 with the data [null],
    [getEntry] returns [null] although no 404 was answered. *)
Lemma getEntry_null_without_404 :
  ~ (fst (Api.getEntry "2024-01-01" (browser ∅ [Some (Response 200 VNull)])) = Ret VNull
     <-> exists req resp,
           network (snd (Api.getEntry "2024-01-01"
                           (browser ∅ [Some (Response 200 VNull)])))
           = [(req, Some resp)]
           /\ status resp = 404).
Proof.
  intros [Hnull _].
  destruct (Hnull eq_refl) as (req & resp & Hlog & H404).
  vm_compute in Hlog. injection Hlog as _ <-. discriminate H404.
Qed.

(** ** The editor's chat: guard, context and fallback *)

Section EditorChat.
Context `{Server}.

Lemma editor_send_run snap st w :
  truthy (VStr (trim (AITalk.userInput snap))) = true ->
  truthy (AITalk.chatSessionId snap) = true ->
  let r := Api.sendMessage (AITalk.chatSessionId snap) (AITalk.userInput snap)
             (VStr (AITalk.document_context (AITalk.title snap) (AITalk.content snap))) w in
  AITalk.handleSendMessage snap (st, w) =
    match fst r with
    | Ret reply =>
        match prop reply "content" with
        | Some text =>
            (Ret tt,
             (AITalk.setIsAiThinking false
                (AITalk.setChatMessages (fun prev => prev ++ [model_message text])
                   (awaiting_reply snap st)),
              snd r))
        | None =>
            (Throw TypeError,
             (AITalk.setIsAiThinking false (awaiting_reply snap st), snd r))
        end
    | Throw _ =>
        (Ret tt,
         (AITalk.setIsAiThinking false
            (AITalk.setChatMessages (fun prev => prev ++ [AITalk.fallback_message])
               (awaiting_reply snap st)),
          logged "Failed to send message:" (snd r)))
    end.
Proof.
  intros Hinput Hsession r. subst r.
  unfold AITalk.handleSendMessage. rewrite Hinput, Hsession. simpl negb. simpl orb.
  unfold awaiting_reply, user_message, model_message. run_handler.
  destruct (Api.sendMessage (AITalk.chatSessionId snap) (AITalk.userInput snap)
              (VStr (AITalk.document_context (AITalk.title snap) (AITalk.content snap))) w)
    as [[reply|e] w']; simpl; [|reflexivity].
  destruct (prop reply "content") as [text|]; reflexivity.
Qed.

(** C10. In the editor's chat, when the trimmed input is empty or the chat
    session id is not set (it is falsy), the handler returns at once: the
    component's whole state (the message list, the input field and the
    thinking flag among it) and the world (no request logged, nothing
    stored) are unchanged. *)
Theorem editor_send_guard snap st w :
  is_empty (trim (AITalk.userInput snap)) = true
  \/ truthy (AITalk.chatSessionId snap) = false ->
  AITalk.handleSendMessage snap (st, w) = (Ret tt, (st, w)).
Proof.
  intros Hguard. unfold AITalk.handleSendMessage.
  replace (negb (truthy (VStr (trim (AITalk.userInput snap))))
           || negb (truthy (AITalk.chatSessionId snap))) with true; [reflexivity|].
  symmetry. apply orb_true_iff. destruct Hguard as [Hempty | Hunset].
  - left. simpl. now rewrite Hempty.
  - right. now rewrite Hunset.
Qed.

(** C1, as amended. The context sent with a chat message of the editor is
    "Current Journal Entry:", a line "Title: <t>" and a line
    "Content: <c>", where t and c are the title and content the editor
    holds when the message is sent; the message is the only exchange with
    the server, so nothing is read back from the stored entry. *)
Theorem editor_context_from_document snap st w t c :
  AITalk.title snap = VStr t ->
  AITalk.content snap = VStr c ->
  is_empty (trim (AITalk.userInput snap)) = false ->
  truthy (AITalk.chatSessionId snap) = true ->
  posts w (snd (snd (AITalk.handleSendMessage snap (st, w))))
    [("role", VStr "user"); ("content", VStr (AITalk.userInput snap));
     ("context", VStr ("Current Journal Entry:" +:+ nl +:+ "Title: " +:+ t +:+ nl +:+
                       "Content: " +:+ c))].
Proof.
  intros Htitle Hcontent Hinput Hsession.
  rewrite editor_send_run; [|simpl; now rewrite Hinput|assumption].
  rewrite Htitle, Hcontent.
  pose proof (sendMessage_posts (AITalk.chatSessionId snap) (AITalk.userInput snap)
                (VStr (AITalk.document_context (VStr t) (VStr c))) w) as Hposts.
  rewrite document_context_nonempty in Hposts.
  destruct Hposts as (req & answer & Hlog & Hreq).
  exists req, answer. split; [|exact Hreq].
  simpl snd.
  destruct (Api.sendMessage (AITalk.chatSessionId snap) (AITalk.userInput snap)
              (VStr (AITalk.document_context (VStr t) (VStr c))) w)
    as [[reply|e] w']; simpl in *; [|assumption].
  destruct (prop reply "content"); simpl; assumption.
Qed.

(** When the request of a message that passed the guard is rejected (no
    answer, or an answer outside 200 to 299), the handler returns normally
    and the editor shows the user's message followed by the fallback
    message, with the thinking flag off again. *)
Lemma editor_send_failure_fallback snap st w :
  is_empty (trim (AITalk.userInput snap)) = false ->
  truthy (AITalk.chatSessionId snap) = true ->
  (forall reply,
     fst (Api.sendMessage (AITalk.chatSessionId snap) (AITalk.userInput snap)
            (VStr (AITalk.document_context (AITalk.title snap) (AITalk.content snap))) w)
     <> Ret reply) ->
  fst (AITalk.handleSendMessage snap (st, w)) = Ret tt
  /\ AITalk.chatMessages (fst (snd (AITalk.handleSendMessage snap (st, w)))) =
       AITalk.chatMessages st
       ++ [user_message (AITalk.userInput snap); AITalk.fallback_message]
  /\ AITalk.isAiThinking (fst (snd (AITalk.handleSendMessage snap (st, w)))) = false.
Proof.
  intros Hinput Hsession Hfails.
  rewrite editor_send_run; [|simpl; now rewrite Hinput|assumption].
  simpl fst.
  destruct (Api.sendMessage (AITalk.chatSessionId snap) (AITalk.userInput snap)
              (VStr (AITalk.document_context (AITalk.title snap) (AITalk.content snap))) w)
    as [[reply|e] w']; simpl in *.
  - now destruct (Hfails reply).
  - rewrite <- app_assoc. auto.
Qed.
End EditorChat.

(** Blank input, and no session. *)
Lemma editor_send_guard_witness :
  AITalk.handleSendMessage (editing "T" "C" "   ")
    (editing "T" "C" "   ", browser ∅ [None])
  = (Ret tt, (editing "T" "C" "   ", browser ∅ [None]))
  /\ AITalk.handleSendMessage AITalk.initial (AITalk.initial, browser ∅ [None])
     = (Ret tt, (AITalk.initial, browser ∅ [None])).
Proof.
  split.
  - apply (@editor_send_guard scripted). left. reflexivity.
  - apply (@editor_send_guard scripted). right. reflexivity.
Defined.

Lemma editor_context_witness :
  posts (browser ∅ [None])
    (snd (snd (AITalk.handleSendMessage (editing "T" "C" "hello")
                 (editing "T" "C" "hello", browser ∅ [None]))))
    [("role", VStr "user"); ("content", VStr "hello");
     ("context", VStr ("Current Journal Entry:" +:+ nl +:+ "Title: T" +:+ nl +:+
                       "Content: C"))].
Proof.
  apply (@editor_context_from_document scripted (editing "T" "C" "hello")
           (editing "T" "C" "hello") (browser ∅ [None]) "T" "C");
    reflexivity.
Defined.

(** The server does not answer the editor's "hello". *)
Lemma editor_send_failure_witness :
  let run := AITalk.handleSendMessage (editing "T" "C" "hello")
               (editing "T" "C" "hello", browser ∅ [None]) in
  fst run = Ret tt
  /\ AITalk.chatMessages (fst (snd run))
     = [] ++ [user_message "hello"; AITalk.fallback_message]
  /\ AITalk.isAiThinking (fst (snd run)) = false.
Proof.
  apply (@editor_send_failure_fallback scripted (editing "T" "C" "hello")
           (editing "T" "C" "hello") (browser ∅ [None]));
    [reflexivity | reflexivity | intros reply; discriminate].
Defined.

(** C1 as stated fails: for the title "T" and the content "C" the context
    sent is not the string of the specification's form. *)
Lemma editor_context_not_spec_form :
  ~ posts (browser ∅ [None])
      (snd (snd (AITalk.handleSendMessage (editing "T" "C" "hello")
                   (editing "T" "C" "hello", browser ∅ [None]))))
      [("role", VStr "user"); ("content", VStr "hello");
       ("context", VStr (spec_context "T" "C"))].
Proof.
  intros (req & answer & Hlog & _ & Hdata).
  vm_compute in Hlog. injection Hlog as Hreq _. subst req.
  vm_compute in Hdata. discriminate Hdata.
Qed.

(** ** The per-date session cache *)

Section SessionCache.
Context `{Server}.

Lemma createNewSession_run date key st w :
  let r := Api.createChatSession (VStr ("Journal: " +:+ date)) w in
  AITalk.createNewSession date key (st, w) =
    (Ret tt,
     match fst r with
     | Ret session =>
         match prop session "id" with
         | Some new_id =>
             (AITalk.setChatMessages (fun _ => [AITalk.greeting])
                (AITalk.setChatSessionId new_id st),
              snd (Api.setItem key new_id (snd r)))
         | None => (st, logged "Failed to create chat session:" (snd r))
         end
     | Throw _ => (st, logged "Failed to create chat session:" (snd r))
     end).
Proof.
  intros r. subst r.
  unfold AITalk.createNewSession. run_handler.
  destruct (Api.createChatSession (VStr ("Journal: " +:+ date)) w)
    as [[session|e] w']; simpl; [|reflexivity].
  destruct (prop session "id") as [new_id|]; reflexivity.
Qed.

Lemma createChatSession_exchanges title w :
  exchanges w (snd (Api.createChatSession title w))
    (fun req =>
       method req = POST /\ url req = Api.API_URL +:+ "/chat/sessions"
       /\ data req = Json (VObj [("title", Api.or_default title (VStr "New Chat"))])).
Proof.
  unfold Api.createChatSession, Api.api_post, bind.
  destruct (api_request_run POST "/chat/sessions"
              (Json (VObj [("title", Api.or_default title (VStr "New Chat"))])) ∅ w)
    as (req & Hrun & Hm & Hu & Hd & _).
  rewrite Hrun. exists req, (fst (Api.exchange req w)).
  split; [|auto].
  destruct (Api.settle (fst (Api.exchange req w))); simpl; apply exchange_log.
Qed.

Lemma initializeChatSession_cached date st w sid :
  localStorage w !! ("chat_session_" +:+ date) = Some sid -> sid <> "" ->
  let r := Api.getChatHistory (VStr sid) w in
  AITalk.initializeChatSession date (st, w) =
    match fst r with
    | Ret history =>
        (Ret tt,
         (AITalk.setChatMessages (fun _ => AITalk.elements_of history)
            (AITalk.setChatSessionId (parseInt sid) st),
          snd r))
    | Throw _ =>
        AITalk.createNewSession date ("chat_session_" +:+ date)
          (AITalk.setChatSessionId (parseInt sid) st,
           logged "Failed to load chat history, creating new session" (snd r))
    end.
Proof.
  intros Hcached Hne r. subst r.
  unfold AITalk.initializeChatSession, bind at 1, on_snd at 1, Api.getItem, gets.
  simpl. rewrite Hcached. simpl.
  destruct sid as [|a sid]; [congruence|]. simpl.
  run_handler.
  destruct (Api.getChatHistory (VStr (String a sid)) w) as [[history|e] w'];
    reflexivity.
Qed.

Lemma initializeChatSession_uncached date st w :
  localStorage w !! ("chat_session_" +:+ date) = None
  \/ localStorage w !! ("chat_session_" +:+ date) = Some "" ->
  AITalk.initializeChatSession date (st, w) =
    AITalk.createNewSession date ("chat_session_" +:+ date) (st, w).
Proof.
  intros Hnone.
  unfold AITalk.initializeChatSession, bind at 1, on_snd at 1, Api.getItem, gets.
  simpl. destruct Hnone as [-> | ->]; reflexivity.
Qed.

Lemma initializeChatSession_returns date st w :
  fst (AITalk.initializeChatSession date (st, w)) = Ret tt.
Proof.
  destruct (localStorage w !! ("chat_session_" +:+ date)) as [[|a sid]|] eqn:Hcache.
  - rewrite initializeChatSession_uncached by auto.
    now rewrite createNewSession_run.
  - rewrite (initializeChatSession_cached date st w (String a sid));
      [|assumption|discriminate].
    destruct (Api.getChatHistory (VStr (String a sid)) w) as [[history|e] w'];
      simpl; [reflexivity|]. now rewrite createNewSession_run.
  - rewrite initializeChatSession_uncached by auto.
    now rewrite createNewSession_run.
Qed.

(** C4. Opening the editor for a date never surfaces an error. When the
    session id cached for the date fails to load its history, the client
    asks the server for a new session; once that is answered, the new id is
    the current session and is stored under the same key of the cache. When
    nothing is cached for the date (or the empty string is), a new session
    is created and cached in the same way. *)
Theorem stale_cached_session_replaced date st w :
  let key := "chat_session_" +:+ date in
  let create := Api.createChatSession (VStr ("Journal: " +:+ date)) in
  let final := snd (AITalk.initializeChatSession date (st, w)) in
  fst (AITalk.initializeChatSession date (st, w)) = Ret tt
  /\ (forall sid e w1,
        localStorage w !! key = Some sid -> sid <> "" ->
        Api.getChatHistory (VStr sid) w = (Throw e, w1) ->
        let w1' := logged "Failed to load chat history, creating new session" w1 in
        exchanges w1 (snd final)
          (fun req => method req = POST /\ url req = Api.API_URL +:+ "/chat/sessions")
        /\ forall session new_id,
             fst (create w1') = Ret session -> prop session "id" = Some new_id ->
             AITalk.chatSessionId (fst final) = new_id
             /\ localStorage (snd final) !! key = Some (to_string new_id)
             /\ AITalk.chatMessages (fst final) = [AITalk.greeting])
  /\ (localStorage w !! key = None \/ localStorage w !! key = Some "" ->
        exchanges w (snd final)
          (fun req => method req = POST /\ url req = Api.API_URL +:+ "/chat/sessions")
        /\ forall session new_id,
             fst (create w) = Ret session -> prop session "id" = Some new_id ->
             AITalk.chatSessionId (fst final) = new_id
             /\ localStorage (snd final) !! key = Some (to_string new_id)
             /\ AITalk.chatMessages (fst final) = [AITalk.greeting]).
Proof.
  intros key create final. subst key create final.
  split; [apply initializeChatSession_returns|]. split.
  - intros sid e w1 Hcached Hne Hhistory w1'. subst w1'.
    rewrite (initializeChatSession_cached date st w sid) by assumption.
    rewrite Hhistory. simpl fst. simpl snd. rewrite createNewSession_run.
    simpl snd.
    pose proof (createChatSession_exchanges (VStr ("Journal: " +:+ date))
                  (logged "Failed to load chat history, creating new session" w1))
      as (req & answer & Hlog & Hm & Hu & _).
    split.
    + exists req, answer. split; [|auto].
      destruct (Api.createChatSession (VStr ("Journal: " +:+ date))
                  (logged "Failed to load chat history, creating new session" w1))
        as [[session|e'] w2]; simpl in *.
      * destruct (prop session "id"); simpl; assumption.
      * assumption.
    + intros session new_id Hcreate Hid. rewrite Hcreate, Hid. simpl.
      repeat split. apply lookup_insert_eq.
  - intros Hnone.
    rewrite initializeChatSession_uncached by assumption.
    rewrite createNewSession_run. simpl snd.
    pose proof (createChatSession_exchanges (VStr ("Journal: " +:+ date)) w)
      as (req & answer & Hlog & Hm & Hu & _).
    split.
    + exists req, answer. split; [|auto].
      destruct (Api.createChatSession (VStr ("Journal: " +:+ date)) w)
        as [[session|e'] w2]; simpl in *.
      * destruct (prop session "id"); simpl; assumption.
      * assumption.
    + intros session new_id Hcreate Hid. rewrite Hcreate, Hid. simpl.
      repeat split. apply lookup_insert_eq.
Qed.
End SessionCache.

(** Session 7 is cached for the date and is gone on the server, which then
    creates session 8; and a date with nothing cached. *)
Lemma stale_cached_session_witness :
  let gone := Response 404 (VObj [("detail", VStr "Session not found")]) in
  let created := Response 200 (VObj [("id", VNum 8); ("title", VStr "Journal: 2024-01-01")]) in
  let stale := snd (AITalk.initializeChatSession "2024-01-01"
                      (AITalk.initial,
                       browser {[ "chat_session_2024-01-01" := "7" ]}
                         [Some gone; Some created])) in
  let fresh := snd (AITalk.initializeChatSession "2024-01-01"
                      (AITalk.initial, browser ∅ [Some created])) in
  (AITalk.chatSessionId (fst stale) = VNum 8
   /\ localStorage (snd stale) !! "chat_session_2024-01-01" = Some "8")
  /\ (AITalk.chatSessionId (fst fresh) = VNum 8
      /\ localStorage (snd fresh) !! "chat_session_2024-01-01" = Some "8").
Proof.
  intros gone created stale fresh. split.
  - destruct (@stale_cached_session_replaced scripted "2024-01-01" AITalk.initial
                (browser {[ "chat_session_2024-01-01" := "7" ]}
                   [Some gone; Some created]))
      as (_ & Hstale & _).
    edestruct (Hstale "7") as (_ & Hnew);
      [reflexivity | discriminate | reflexivity |].
    destruct (Hnew (body created) (VNum 8) eq_refl eq_refl) as (Hid & Hstored & _).
    split; assumption.
  - destruct (@stale_cached_session_replaced scripted "2024-01-01" AITalk.initial
                (browser ∅ [Some created]))
      as (_ & _ & Hfresh).
    destruct (Hfresh (or_introl eq_refl)) as (_ & Hnew).
    destruct (Hnew (body created) (VNum 8) eq_refl eq_refl) as (Hid & Hstored & _).
    split; assumption.
Defined.

(** ** Saving the entry: create or update *)

Section Upsert.
Context `{Server}.

Lemma handleSave_run date snap st w :
  AITalk.handleSave date snap (st, w) =
    (Ret tt,
     if AITalk.entryExists snap
     then
       let r := Api.updateEntry date (entry_data date snap) w in
       (AITalk.setIsSaving false (AITalk.setIsSaving true st),
        match fst r with
        | Ret _ => snd r
        | Throw _ => logged "Failed to save entry:" (snd r)
        end)
     else
       let r := Api.createEntry (entry_data date snap) w in
       match fst r with
       | Ret _ =>
           (AITalk.setIsSaving false
              (AITalk.setEntryExists true (AITalk.setIsSaving true st)), snd r)
       | Throw _ =>
           (AITalk.setIsSaving false (AITalk.setIsSaving true st),
            logged "Failed to save entry:" (snd r))
       end).
Proof.
  unfold AITalk.handleSave, entry_data. run_handler.
  destruct (AITalk.entryExists snap); simpl.
  - destruct (Api.updateEntry date _ w) as [[v|e] w']; reflexivity.
  - destruct (Api.createEntry _ w) as [[v|e] w']; reflexivity.
Qed.

Lemma updateEntry_run date entry w :
  exists req,
    method req = PUT /\ url req = Api.API_URL +:+ "/entries/" +:+ date
    /\ data req = Json entry
    /\ snd (Api.updateEntry date entry w) = snd (Api.exchange req w)
    /\ (resolved (fst (Api.exchange req w)) = true <->
        exists v, fst (Api.updateEntry date entry w) = Ret v).
Proof.
  unfold Api.updateEntry, Api.api_put, bind.
  destruct (api_request_run PUT ("/entries/" +:+ date) (Json entry) ∅ w)
    as (req & Hrun & Hm & Hu & Hd & _).
  exists req. rewrite Hrun. repeat split; try assumption.
  - destruct (Api.settle (fst (Api.exchange req w))); reflexivity.
  - unfold resolved, Api.settle.
    destruct (fst (Api.exchange req w)) as [resp|]; [|discriminate].
    intros ->. simpl. eauto.
  - unfold resolved, Api.settle.
    destruct (fst (Api.exchange req w)) as [resp|]; simpl.
    + destruct ((200 <=? status resp) && (status resp <? 300)); [reflexivity|].
      intros (v & [=]).
    + intros (v & [=]).
Qed.

Lemma createEntry_run entry w :
  exists req,
    method req = POST /\ url req = Api.API_URL +:+ "/entries/"
    /\ data req = Json entry
    /\ snd (Api.createEntry entry w) = snd (Api.exchange req w)
    /\ (resolved (fst (Api.exchange req w)) = true <->
        exists v, fst (Api.createEntry entry w) = Ret v).
Proof.
  unfold Api.createEntry, Api.api_post, bind.
  destruct (api_request_run POST "/entries/" (Json entry) ∅ w)
    as (req & Hrun & Hm & Hu & Hd & _).
  exists req. rewrite Hrun. repeat split; try assumption.
  - destruct (Api.settle (fst (Api.exchange req w))); reflexivity.
  - unfold resolved, Api.settle.
    destruct (fst (Api.exchange req w)) as [resp|]; [|discriminate].
    intros ->. simpl. eauto.
  - unfold resolved, Api.settle.
    destruct (fst (Api.exchange req w)) as [resp|]; simpl.
    + destruct ((200 <=? status resp) && (status resp <? 300)); [reflexivity|].
      intros (v & [=]).
    + intros (v & [=]).
Qed.






Lemma successful_creates_snoc log x :
  successful_creates (log ++ [x]) =
    (successful_creates log + (if is_create x && resolved (snd x) then 1 else 0))%nat.
Proof.
  unfold successful_creates. rewrite filter_app, length_app. f_equal.
  rewrite filter_cons, filter_nil.
  destruct (is_create x && resolved (snd x)); reflexivity.
Qed.



Lemma successful_creates_mono log x :
  (successful_creates log <= successful_creates (log ++ [x]))%nat.
Proof. rewrite successful_creates_snoc. lia. Qed.





(** The probe: [fetchEntry] marks the entry as existing exactly when the
    lookup returned one, and leaves the mark alone when the lookup threw. *)
Lemma fetchEntry_probe date st w :
  fst (AITalk.fetchEntry date (st, w)) = Ret tt
  /\ AITalk.entryExists (fst (snd (AITalk.fetchEntry date (st, w)))) =
       match fst (Api.getEntry date w) with
       | Ret entry => truthy entry
       | Throw _ => AITalk.entryExists st
       end.
Proof.
  unfold AITalk.fetchEntry. run_handler.
  destruct (Api.getEntry date w) as [[entry|e] w']; simpl; [|auto].
  destruct entry as [| |b|n| |s|elems|fields]; simpl; auto.
  - destruct b; simpl; auto.
  - destruct (n =? 0); simpl; auto.
  - destruct (is_empty s); simpl; auto.
Qed.
End Upsert.


(** ** The standalone chat: first message and failed sends *)

Section StandaloneChat.
Context `{Server}.

Lemma sendMessage_exchanges sessionId content context w :
  exchanges w (snd (Api.sendMessage sessionId content context w))
    (fun req =>
       method req = POST
       /\ url req = Api.API_URL +:+ "/chat/" +:+ to_string sessionId
       /\ data req = Json (Api.message_payload content (Api.or_default context VNull))).
Proof.
  destruct (sendMessage_run sessionId content context w) as (req & Hrun & Hreq).
  exists req, (fst (Api.exchange req w)). rewrite Hrun. simpl.
  split; [apply exchange_log | exact Hreq].
Qed.

Lemma deliver_run sid text now today st w :
  let r := Api.sendMessage sid text VUndefined w in
  let shown :=
    ChatInterface.setIsLoading true
      (ChatInterface.setInputMessage ""
         (ChatInterface.setMessages (fun prev => prev ++ [shown_message text now today]) st)) in
  ChatInterface.deliver sid text now today (st, w) =
    (Ret tt,
     match fst r with
     | Ret reply =>
         match prop reply "id", prop reply "content", prop reply "timestamp" with
         | Some reply_id, Some reply_content, Some reply_timestamp =>
             (ChatInterface.setIsLoading false
                (ChatInterface.setMessages
                   (fun prev =>
                      prev ++ [{| ChatInterface.id := reply_id;
                                  ChatInterface.role := "assistant";
                                  ChatInterface.content := reply_content;
                                  ChatInterface.timestamp := ChatInterface.DateOf reply_timestamp;
                                  ChatInterface.showSuggestions := VUndefined |}])
                   shown),
              snd r)
         | _, _, _ =>
             (ChatInterface.setIsLoading false shown,
              logged "Failed to send message" (snd r))
         end
     | Throw _ =>
         (ChatInterface.setIsLoading false shown,
          logged "Failed to send message" (snd r))
     end).
Proof.
  intros r shown. subst r shown.
  unfold ChatInterface.deliver, shown_message. run_handler.
  destruct (Api.sendMessage sid text VUndefined w) as [[reply|e] w']; simpl;
    [|reflexivity].
  destruct reply; reflexivity.
Qed.

Lemma deliver_exchanges sid text now today st w :
  exchanges w (snd (snd (ChatInterface.deliver sid text now today (st, w))))
    (fun req =>
       method req = POST
       /\ url req = Api.API_URL +:+ "/chat/" +:+ to_string sid
       /\ data req = Json (VObj [("role", VStr "user"); ("content", VStr text)])).
Proof.
  rewrite deliver_run. simpl snd.
  destruct (sendMessage_exchanges sid text VUndefined w)
    as (req & answer & Hlog & Hreq).
  exists req, answer. split; [|exact Hreq].
  destruct (Api.sendMessage sid text VUndefined w) as [[reply|e] w']; simpl in *;
    [|assumption].
  destruct (prop reply "id"), (prop reply "content"), (prop reply "timestamp");
    simpl; assumption.
Qed.

Lemma deliver_keeps_session sid text now today st w :
  ChatInterface.currentSessionId
    (fst (snd (ChatInterface.deliver sid text now today (st, w))))
  = ChatInterface.currentSessionId st.
Proof.
  rewrite deliver_run. simpl snd.
  destruct (fst (Api.sendMessage sid text VUndefined w)) as [reply|e];
    [|reflexivity].
  destruct (prop reply "id"), (prop reply "content"), (prop reply "timestamp");
    reflexivity.
Qed.

(** A failed send leaves the user's message alone in the view: the handler
    logs the error and appends nothing. *)
Lemma deliver_failure sid text now today st w :
  (forall reply, fst (Api.sendMessage sid text VUndefined w) <> Ret reply) ->
  fst (ChatInterface.deliver sid text now today (st, w)) = Ret tt
  /\ ChatInterface.messages
       (fst (snd (ChatInterface.deliver sid text now today (st, w))))
     = ChatInterface.messages st ++ [shown_message text now today].
Proof.
  intros Hfails. rewrite deliver_run. simpl.
  destruct (fst (Api.sendMessage sid text VUndefined w)) as [reply|e].
  - now destruct (Hfails reply).
  - auto.
Qed.

Lemma guard_passes customMessage snap :
  is_empty (trim (message_to_send customMessage snap)) = false ->
  ChatInterface.isLoading snap = false ->
  negb (truthy (VStr (message_to_send customMessage snap)))
  || is_empty (trim (message_to_send customMessage snap))
  || ChatInterface.isLoading snap = false.
Proof.
  intros Htext Hidle. rewrite Htext, Hidle.
  destruct (message_to_send customMessage snap); [discriminate Htext|reflexivity].
Qed.

Lemma standalone_send_run customMessage now today snap st w :
  is_empty (trim (message_to_send customMessage snap)) = false ->
  ChatInterface.isLoading snap = false ->
  ChatInterface.handleSendMessage customMessage now today snap (st, w) =
    let text := message_to_send customMessage snap in
    if truthy (ChatInterface.currentSessionId snap)
    then ChatInterface.deliver (ChatInterface.currentSessionId snap) text now today (st, w)
    else
      let r := Api.createChatSession VUndefined w in
      match fst r with
      | Ret session =>
          let listed :=
            ChatInterface.setSessions (session :: ChatInterface.sessions snap) st in
          match prop session "id" with
          | Some new_id =>
              ChatInterface.deliver new_id text now today
                (ChatInterface.setCurrentSessionId new_id listed, snd r)
          | None => (Ret tt, (listed, logged "Failed to create session" (snd r)))
          end
      | Throw _ => (Ret tt, (st, logged "Failed to create session" (snd r)))
      end.
Proof.
  intros Htext Hidle.
  pose proof (guard_passes customMessage snap Htext Hidle) as Hguard.
  unfold ChatInterface.handleSendMessage. fold (message_to_send customMessage snap).
  rewrite Hguard.
  unfold ChatInterface.ensure_session, bind at 1.
  destruct (truthy (ChatInterface.currentSessionId snap)); simpl; [reflexivity|].
  run_handler.
  destruct (Api.createChatSession VUndefined w) as [[session|e] w']; simpl;
    [|reflexivity].
  destruct (prop session "id") as [new_id|]; reflexivity.
Qed.

(** C7. In the standalone chat, a message that passes the guard (it is not
    blank and no send is in flight) while no session is selected makes the
    client create a session first; when the session is created it becomes
    the current one and the message is then posted to it; when the creation
    fails, or its answer carries no session, the creation stays the only
    exchange and the list of messages is unchanged. *)
Theorem first_message_creates_session customMessage now today snap st w :
  let text := message_to_send customMessage snap in
  is_empty (trim text) = false ->
  ChatInterface.isLoading snap = false ->
  truthy (ChatInterface.currentSessionId snap) = false ->
  let created := Api.createChatSession VUndefined w in
  let final := snd (ChatInterface.handleSendMessage customMessage now today snap (st, w)) in
  exchanges w (snd created)
    (fun req =>
       method req = POST /\ url req = Api.API_URL +:+ "/chat/sessions"
       /\ data req = Json (VObj [("title", VStr "New Chat")]))
  /\ (forall session new_id,
        fst created = Ret session -> prop session "id" = Some new_id ->
        ChatInterface.currentSessionId (fst final) = new_id
        /\ exchanges (snd created) (snd final)
             (fun req =>
                method req = POST
                /\ url req = Api.API_URL +:+ "/chat/" +:+ to_string new_id
                /\ data req = Json (VObj [("role", VStr "user"); ("content", VStr text)])))
  /\ ((forall session new_id,
         fst created = Ret session -> prop session "id" <> Some new_id) ->
      network (snd final) = network (snd created)
      /\ ChatInterface.messages (fst final) = ChatInterface.messages st
      /\ ChatInterface.currentSessionId (fst final) = ChatInterface.currentSessionId st).
Proof.
  intros text Htext Hidle Hnone created final. subst text created final.
  rewrite standalone_send_run by assumption. rewrite Hnone. simpl.
  split; [apply (createChatSession_exchanges VUndefined w)|]. split.
  - intros session new_id Hcreated Hid. rewrite Hcreated, Hid.
    split.
    + now rewrite deliver_keeps_session.
    + apply deliver_exchanges.
  - intros Hfails.
    destruct (fst (Api.createChatSession VUndefined w)) as [session|e] eqn:Hcreated;
      [|auto].
    destruct (prop session "id") as [new_id|] eqn:Hid; [|auto].
    now destruct (Hfails session new_id eq_refl).
Qed.
End StandaloneChat.

(** A first message "hello": the server creates session 5 and answers. *)
Lemma first_message_witness :
  let snap := ChatInterface.setInputMessage "hello" ChatInterface.initial in
  let w := browser ∅ [Some (Response 200 (VObj [("id", VNum 5)]));
                       Some (Response 200 (VObj [("id", VNum 1); ("content", VStr "Hi")]))] in
  let final := snd (ChatInterface.handleSendMessage VUndefined 1000 1000 snap (snap, w)) in
  ChatInterface.currentSessionId (fst final) = VNum 5
  /\ exchanges (snd (Api.createChatSession VUndefined w)) (snd final)
       (fun req =>
          method req = POST
          /\ url req = "http://localhost:8000/chat/5"
          /\ data req = Json (VObj [("role", VStr "user"); ("content", VStr "hello")])).
Proof.
  intros snap w final.
  destruct (@first_message_creates_session scripted VUndefined 1000 1000 snap snap w
              eq_refl eq_refl eq_refl) as (_ & Hcreated & _).
  apply (Hcreated (VObj [("id", VNum 5)]) (VNum 5)); reflexivity.
Defined.

(** C2 at the failing input. The standalone chat, with session 1 selected
    and "hello" typed, faces a server that does not answer: the handler
    returns normally and the view holds the user's message only, with no
    fallback message after it; the editor's chat, in the same situation,
    holds the user's message followed by the fallback message. *)
Theorem standalone_failure_shows_no_fallback :
  let snap := ChatInterface.setCurrentSessionId (VNum 1)
                (ChatInterface.setInputMessage "hello" ChatInterface.initial) in
  let run := ChatInterface.handleSendMessage VUndefined 1000 1000 snap
               (snap, browser ∅ [None]) in
  let editor := AITalk.handleSendMessage (editing "T" "C" "hello")
                  (editing "T" "C" "hello", browser ∅ [None]) in
  fst run = Ret tt
  /\ ChatInterface.messages (fst (snd run)) = [shown_message "hello" 1000 1000]
  /\ fst editor = Ret tt
  /\ AITalk.chatMessages (fst (snd editor))
     = [user_message "hello"; AITalk.fallback_message].
Proof.
  vm_compute. repeat split; reflexivity.
Qed.

(** ** Local storage: who writes it *)

Section Storage.
Context `{Server}.

Lemma api_request_frame m path d hdrs w :
  localStorage (snd (Api.api_request m path d hdrs w)) = localStorage w
  /\ console (snd (Api.api_request m path d hdrs w)) = console w.
Proof.
  destruct (api_request_run m path d hdrs w) as (req & Hrun & _).
  rewrite Hrun. simpl. split; apply exchange_log.
Qed.

(** A call that only returns the data of its response changes what the
    request changes. *)
Lemma returning_body_frame (call : M world response) w :
  snd ((response <- call;; ret (body response)) w) = snd (call w).
Proof.
  unfold bind, ret. destruct (call w) as [[resp|e] w']; reflexivity.
Qed.

Ltac storage_kept :=
  unfold Api.sendMessage, Api.createEntry, Api.updateEntry, Api.deleteEntry,
    Api.getChatHistory, Api.getChatSessions, Api.createChatSession,
    Api.deleteChatSession, Api.getEntries, Api.register,
    Api.api_get, Api.api_post, Api.api_put, Api.api_delete;
  rewrite returning_body_frame; apply api_request_frame.

(** Of the client's functions only [login] and [logout] write to local
    storage: whatever the server answers (a 401 included), every other call
    leaves the stored token and the cached session ids as they were. *)
Theorem data_calls_keep_storage w :
  (forall sessionId content context,
     localStorage (snd (Api.sendMessage sessionId content context w)) = localStorage w)
  /\ (forall date, localStorage (snd (Api.getEntry date w)) = localStorage w)
  /\ (forall skip limit, localStorage (snd (Api.getEntries skip limit w)) = localStorage w)
  /\ (forall entry, localStorage (snd (Api.createEntry entry w)) = localStorage w)
  /\ (forall date entry, localStorage (snd (Api.updateEntry date entry w)) = localStorage w)
  /\ (forall date, localStorage (snd (Api.deleteEntry date w)) = localStorage w)
  /\ (forall sessionId, localStorage (snd (Api.getChatHistory sessionId w)) = localStorage w)
  /\ localStorage (snd (Api.getChatSessions w)) = localStorage w
  /\ (forall title, localStorage (snd (Api.createChatSession title w)) = localStorage w)
  /\ (forall sessionId, localStorage (snd (Api.deleteChatSession sessionId w)) = localStorage w)
  /\ (forall email password,
        localStorage (snd (Api.register email password w)) = localStorage w).
Proof.
  repeat split; intros; try (storage_kept; fail).
  destruct (getEntry_run date w) as (req & _ & _ & Hrun).
  rewrite Hrun. simpl. apply exchange_log.
Qed.

Lemma login_run username password w :
  exists req,
    method req = POST /\ url req = Api.API_URL +:+ "/token"
    /\ data req = FormData [("username", username); ("password", password)]
    /\ headers req !! "Content-Type" = Some "multipart/form-data"
    /\ Api.login username password w =
         match Api.settle (fst (Api.exchange req w)) with
         | Ret resp =>
             match prop (body resp) "access_token" with
             | Some access_token =>
                 (Ret (body resp),
                  if truthy access_token
                  then snd (Api.setItem "token" access_token (snd (Api.exchange req w)))
                  else snd (Api.exchange req w))
             | None => (Throw TypeError, snd (Api.exchange req w))
             end
         | Throw e => (Throw e, snd (Api.exchange req w))
         end.
Proof.
  unfold Api.login, Api.api_post, bind.
  destruct (api_request_run POST "/token"
              (FormData [("username", username); ("password", password)])
              {[ "Content-Type" := "multipart/form-data" ]} w)
    as (req & Hrun & Hm & Hu & Hd & Hh).
  exists req. rewrite Hrun. repeat split; try assumption.
  - rewrite Hh.
    destruct (localStorage w !! "token") as [[|a t]|]; reflexivity.
  - destruct (Api.settle (fst (Api.exchange req w))) as [resp|e]; [|reflexivity].
    unfold get_prop. destruct (prop (body resp) "access_token") as [tok|];
      [|reflexivity].
    simpl. destruct (truthy tok); reflexivity.
Qed.

(** A login that does not yield a token changes nothing in local storage:
    when the request is rejected the rejection is thrown on to the caller,
    when the answer has no data a [TypeError] is, and when the data has no
    (or a falsy) [access_token] the data is returned; in each case a token
    stored before is still the stored token. The request is a form post of
    the two credentials. *)
Theorem login_without_token_keeps_storage username password w :
  exists req,
    method req = POST /\ url req = Api.API_URL +:+ "/token"
    /\ data req = FormData [("username", username); ("password", password)]
    /\ headers req !! "Content-Type" = Some "multipart/form-data"
    /\ network (snd (Api.login username password w)) =
         network w ++ [(req, fst (Api.exchange req w))]
    /\ let answer := fst (Api.exchange req w) in
       (resolved answer = false ->
          fst (Api.login username password w) = Throw (AxiosError answer)
          /\ localStorage (snd (Api.login username password w)) = localStorage w)
       /\ (forall resp, answer = Some resp -> resolved answer = true ->
             prop (body resp) "access_token" = None ->
             fst (Api.login username password w) = Throw TypeError
             /\ localStorage (snd (Api.login username password w)) = localStorage w)
       /\ (forall resp access_token, answer = Some resp -> resolved answer = true ->
             prop (body resp) "access_token" = Some access_token ->
             truthy access_token = false ->
             fst (Api.login username password w) = Ret (body resp)
             /\ localStorage (snd (Api.login username password w)) = localStorage w).
Proof.
  destruct (login_run username password w) as (req & Hm & Hu & Hd & Hh & Hrun).
  exists req. rewrite Hrun.
  do 4 (split; [assumption|]).
  pose proof (exchange_log req w) as (Hlog & Hkept & _).
  unfold resolved, Api.settle.
  destruct (fst (Api.exchange req w)) as [r|]; simpl.
  - destruct ((200 <=? status r) && (status r <? 300)); simpl.
    + destruct (prop (body r) "access_token") as [tok|] eqn:Htok; simpl.
      * destruct (truthy tok) eqn:Htruthy; simpl.
        -- split; [exact Hlog|]. split; [discriminate|].
           split; [intros resp [= <-] _ Hnone; congruence|].
           intros resp access_token [= <-] _ Hsome Hfalsy. congruence.
        -- split; [exact Hlog|]. split; [discriminate|].
           split; [intros resp [= <-] _ Hnone; congruence|].
           intros resp access_token [= <-] _ _ _.
           split; [reflexivity | exact Hkept].
      * split; [exact Hlog|]. split; [discriminate|].
        split; [|intros resp access_token [= <-] _ Hsome; congruence].
        intros resp [= <-] _ _. split; [reflexivity | exact Hkept].
    + split; [exact Hlog|].
      split; [intros _; split; [reflexivity | exact Hkept]|].
      split; [intros resp _ [=] | intros resp access_token _ [=]].
  - split; [exact Hlog|].
    split; [intros _; split; [reflexivity | exact Hkept]|].
    split; [intros resp [=] | intros resp access_token [=]].
Qed.

(** After [logout] the token is gone, whatever was stored, and the next
    request carries no Authorization header; every other key of local
    storage, the per-date session ids among them, is kept. *)
Theorem logout_forgets_only_the_token w :
  let w1 := snd (Api.logout w) in
  fst (Api.logout w) = Ret tt
  /\ localStorage w1 !! "token" = None
  /\ (forall key, key <> "token" -> localStorage w1 !! key = localStorage w !! key)
  /\ network w1 = network w
  /\ (forall m path d hdrs,
        exchanges w1 (snd (Api.api_request m path d hdrs w1))
          (fun req => headers req = hdrs ∪ Api.default_headers)).
Proof.
  simpl. split; [reflexivity|]. split; [apply lookup_delete_eq|].
  split; [intros key Hkey; now apply lookup_delete_ne|].
  split; [reflexivity|].
  intros m path d hdrs.
  destruct (api_request_exchanges m path d hdrs (snd (Api.logout w)))
    as (req & answer & Hlog & _ & _ & _ & Hh).
  exists req, answer. split; [assumption|].
  rewrite Hh. simpl. now rewrite lookup_delete_eq.
Qed.
End Storage.

(** A login answered with 401 while an older token is stored, and a logout
    with a session id cached for a date. *)
Lemma login_rejected_witness :
  let w := browser {[ "token" := "old" ]}
             [Some (Response 401 (VObj [("detail", VStr "Incorrect username or password")]))] in
  fst (Api.login "ann" "wrong" w)
  = Throw (AxiosError (Some (Response 401
             (VObj [("detail", VStr "Incorrect username or password")]))))
  /\ localStorage (snd (Api.login "ann" "wrong" w)) = localStorage w.
Proof.
  intros w.
  destruct (@login_without_token_keeps_storage scripted "ann" "wrong" w)
    as (req & _ & _ & _ & _ & _ & Hrejected & _).
  apply Hrejected. reflexivity.
Defined.

Lemma logout_witness :
  let w := browser (<[ "chat_session_2024-01-01" := "7" ]> {[ "token" := "abc" ]}) [] in
  localStorage (snd (Api.logout w)) !! "chat_session_2024-01-01" = Some "7".
Proof.
  intros w.
  destruct (@logout_forgets_only_the_token scripted w) as (_ & _ & Hkept & _).
  rewrite Hkept; [reflexivity | discriminate].
Defined.

(** ** Numbers through local storage: [parseInt] reads back what
    [setItem] wrote *)

Lemma digit_value_pretty_char (d : N) :
  (d < 10)%N -> digit_value (pretty_N_char d) = Some (Z.of_N d).
Proof.
  intros Hd.
  assert (d = 0 \/ d = 1 \/ d = 2 \/ d = 3 \/ d = 4 \/ d = 5 \/ d = 6 \/ d = 7
          \/ d = 8 \/ d = 9)%N as Hcases by lia.
  repeat (destruct Hcases as [-> | Hcases]; [reflexivity|]).
  now subst d.
Qed.

Lemma parse_digits_pretty (x : N) :
  (0 < x)%N ->
  forall s acc,
    default 0 acc = 0 ->
    parse_digits 10 (pretty_N_go x s) acc = parse_digits 10 s (Some (Z.of_N x)).
Proof.
  induction (N.lt_wf_0 x) as [x _ IH]. intros Hpos s acc Hacc.
  rewrite pretty_N_go_step by assumption.
  assert (Hdigit : (x `mod` 10 < 10)%N) by (apply N.mod_lt; discriminate).
  assert (Hsplit : Z.of_N x = Z.of_N (x `div` 10) * 10 + Z.of_N (x `mod` 10)).
  { pose proof (N.div_mod x 10 ltac:(discriminate)). lia. }
  destruct (N.eq_dec (x `div` 10)%N 0%N) as [Hsmall | Hlarge].
  - rewrite Hsmall, pretty_N_go_0. simpl parse_digits.
    rewrite digit_value_pretty_char by assumption.
    replace (Z.of_N (x `mod` 10) <? 10) with true
      by (symmetry; apply Z.ltb_lt; lia).
    rewrite Hacc, Hsplit, Hsmall. reflexivity.
  - rewrite IH;
      [| apply N.div_lt; [assumption | reflexivity]
       | now apply N.neq_0_lt_0 | assumption].
    simpl parse_digits.
    rewrite digit_value_pretty_char by assumption.
    replace (Z.of_N (x `mod` 10) <? 10) with true
      by (symmetry; apply Z.ltb_lt; lia).
    simpl default. now rewrite Hsplit.
Qed.

(** The decimal form of a positive number starts with a digit from 1 to 9. *)
Lemma pretty_N_go_head (x : N) :
  (0 < x)%N ->
  forall s, exists d rest,
    (1 <= d <= 9)%N /\ pretty_N_go x s = String (pretty_N_char d) rest.
Proof.
  induction (N.lt_wf_0 x) as [x _ IH]. intros Hpos s.
  rewrite pretty_N_go_step by assumption.
  destruct (N.eq_dec (x `div` 10)%N 0%N) as [Hsmall | Hlarge].
  - rewrite Hsmall, pretty_N_go_0. exists (x `mod` 10)%N, s. split; [|reflexivity].
    assert (x `mod` 10 < 10)%N by (apply N.mod_lt; discriminate).
    pose proof (N.div_mod x 10 ltac:(discriminate)). lia.
  - apply IH; [apply N.div_lt; [assumption | reflexivity] |].
    now apply N.neq_0_lt_0.
Qed.

Lemma parseInt_positive_digits (d : N) (rest : string) :
  (1 <= d <= 9)%N ->
  parseInt (String (pretty_N_char d) rest)
  = match parse_digits 10 (String (pretty_N_char d) rest) None with
    | Some n => VNum n
    | None => VNaN
    end
  /\ parseInt (String "-" (String (pretty_N_char d) rest))
     = match parse_digits 10 (String (pretty_N_char d) rest) None with
       | Some n => VNum (- n)
       | None => VNaN
       end.
Proof.
  intros Hd.
  assert (d = 1 \/ d = 2 \/ d = 3 \/ d = 4 \/ d = 5 \/ d = 6 \/ d = 7
          \/ d = 8 \/ d = 9)%N as Hcases by lia.
  repeat (destruct Hcases as [-> | Hcases]; [split; reflexivity|]).
  subst d. split; reflexivity.
Qed.

(** [parseInt] reads back the integer whose decimal form a template
    literal, or [localStorage.setItem], wrote. (For JavaScript's numbers
    this is the round trip of the safe integers.) *)
Lemma parseInt_to_string (n : Z) : parseInt (to_string (VNum n)) = VNum n.
Proof.
  destruct n as [|p|p]; [reflexivity| |].
  - change (to_string (VNum (Z.pos p))) with (pretty_N_go (N.pos p) "").
    destruct (pretty_N_go_head (N.pos p) eq_refl "") as (d & rest & Hd & Hhead).
    pose proof (parse_digits_pretty (N.pos p) eq_refl "" None eq_refl) as Hparse.
    rewrite Hhead in Hparse |- *.
    rewrite (proj1 (parseInt_positive_digits d rest Hd)), Hparse. reflexivity.
  - change (to_string (VNum (Z.neg p))) with ("-" +:+ pretty_N_go (N.pos p) "").
    destruct (pretty_N_go_head (N.pos p) eq_refl "") as (d & rest & Hd & Hhead).
    pose proof (parse_digits_pretty (N.pos p) eq_refl "" None eq_refl) as Hparse.
    rewrite Hhead in Hparse |- *.
    change ("-" +:+ String (pretty_N_char d) rest)
      with (String "-" (String (pretty_N_char d) rest)).
    rewrite (proj2 (parseInt_positive_digits d rest Hd)), Hparse. reflexivity.
Qed.

Lemma to_string_number_nonempty (n : Z) : to_string (VNum n) <> "".
Proof.
  destruct n as [|p|p]; [discriminate| |].
  - change (to_string (VNum (Z.pos p))) with (pretty_N_go (N.pos p) "").
    destruct (pretty_N_go_head (N.pos p) eq_refl "") as (d & rest & _ & ->).
    discriminate.
  - change (to_string (VNum (Z.neg p))) with ("-" +:+ pretty_N_go (N.pos p) "").
    discriminate.
Qed.

(** ** The editor: replies, loading, saving and reattaching *)

Section Editor.
Context `{Server}.

(** When the server answers the editor's message, the list of messages
    gains the user's message and then a model message with the content of
    the answer; the input field is cleared, the thinking flag is off again,
    and the document, the save state and the session are untouched. *)
Theorem editor_reply_appended snap st w reply text :
  is_empty (trim (AITalk.userInput snap)) = false ->
  truthy (AITalk.chatSessionId snap) = true ->
  fst (Api.sendMessage (AITalk.chatSessionId snap) (AITalk.userInput snap)
         (VStr (AITalk.document_context (AITalk.title snap) (AITalk.content snap))) w)
  = Ret reply ->
  prop reply "content" = Some text ->
  fst (AITalk.handleSendMessage snap (st, w)) = Ret tt
  /\ fst (snd (AITalk.handleSendMessage snap (st, w))) =
       {| AITalk.content := AITalk.content st; AITalk.title := AITalk.title st;
          AITalk.isSaving := AITalk.isSaving st;
          AITalk.entryExists := AITalk.entryExists st;
          AITalk.chatSessionId := AITalk.chatSessionId st;
          AITalk.chatMessages :=
            AITalk.chatMessages st
            ++ [user_message (AITalk.userInput snap); model_message text];
          AITalk.userInput := ""; AITalk.isAiThinking := false |}.
Proof.
  intros Hinput Hsession Hreply Htext.
  rewrite editor_send_run; [|simpl; now rewrite Hinput|assumption].
  simpl fst. rewrite Hreply, Htext. simpl.
  split; [reflexivity|].
  unfold AITalk.setIsAiThinking, AITalk.setChatMessages, awaiting_reply,
    AITalk.setUserInput. simpl.
  now rewrite <- app_assoc.
Qed.

(** Loading the entry of a date never throws. An entry that was found fills
    the editor, an empty or missing title reading "My Journal Entry" and an
    empty or missing content reading ""; a date with no entry resets the
    editor to that blank document; a lookup that fails leaves the editor as
    it was and logs the failure. The chat is untouched throughout. *)
Theorem fetchEntry_fills_resets_or_keeps date st w :
  let final := fst (snd (AITalk.fetchEntry date (st, w))) in
  let blank := AITalk.setTitle (VStr "My Journal Entry") (AITalk.setContent (VStr "") st) in
  fst (AITalk.fetchEntry date (st, w)) = Ret tt
  /\ (forall entry entry_content entry_title,
        fst (Api.getEntry date w) = Ret entry -> truthy entry = true ->
        prop entry "content" = Some entry_content ->
        prop entry "title" = Some entry_title ->
        final =
          AITalk.setEntryExists true
            (AITalk.setTitle
               (if truthy entry_title then entry_title else VStr "My Journal Entry")
               (AITalk.setContent
                  (if truthy entry_content then entry_content else VStr "") st)))
  /\ (forall entry,
        fst (Api.getEntry date w) = Ret entry -> truthy entry = false ->
        final = AITalk.setEntryExists false blank)
  /\ (forall e,
        fst (Api.getEntry date w) = Throw e ->
        final = st
        /\ console (snd (snd (AITalk.fetchEntry date (st, w))))
           = console w ++ ["Failed to fetch entry:"]).
Proof.
  intros final blank. subst final blank.
  split; [apply fetchEntry_probe|].
  unfold AITalk.fetchEntry. run_handler.
  destruct (Api.getEntry date w) as [[entry|e] w'] eqn:Hget; simpl.
  - split; [|split; [|intros e [=]]].
    + intros entry' c t [= <-] Htruthy Hc Ht. rewrite Htruthy, Hc. simpl.
      rewrite Ht. reflexivity.
    + intros entry' [= <-] Hfalsy. rewrite Hfalsy. destruct st; reflexivity.
  - split; [intros entry' c t [=]|]. split; [intros entry' [=]|].
    intros e' _. split; [reflexivity|].
    assert (Hconsole : console w' = console w).
    { replace w' with (snd (Api.getEntry date w)) by now rewrite Hget.
      destruct (getEntry_run date w) as (req & _ & _ & Hrun).
      rewrite Hrun. simpl. apply exchange_log. }
    now rewrite Hconsole.
Qed.

(** A save never throws, always ends with the saving flag off, and touches
    neither the document, nor the chat, nor local storage. *)
Theorem handleSave_frame date st w :
  let final := snd (AITalk.handleSave date st (st, w)) in
  fst (AITalk.handleSave date st (st, w)) = Ret tt
  /\ AITalk.isSaving (fst final) = false
  /\ AITalk.title (fst final) = AITalk.title st
  /\ AITalk.content (fst final) = AITalk.content st
  /\ AITalk.chatSessionId (fst final) = AITalk.chatSessionId st
  /\ AITalk.chatMessages (fst final) = AITalk.chatMessages st
  /\ AITalk.userInput (fst final) = AITalk.userInput st
  /\ localStorage (snd final) = localStorage w.
Proof.
  intros final. subst final. rewrite handleSave_run. simpl fst. simpl snd.
  split; [reflexivity|].
  destruct (AITalk.entryExists st).
  - simpl. repeat split.
    destruct (updateEntry_run date (entry_data date st) w) as (req & _ & _ & _ & Hw & _).
    destruct (fst (Api.updateEntry date (entry_data date st) w));
      unfold logged; simpl; rewrite Hw; apply exchange_log.
  - destruct (createEntry_run (entry_data date st) w) as (req & _ & _ & _ & Hw & _).
    destruct (fst (Api.createEntry (entry_data date st) w)); simpl;
      repeat split; unfold logged; simpl; rewrite Hw; apply exchange_log.
Qed.

Lemma getChatHistory_exchanges sessionId w :
  exchanges w (snd (Api.getChatHistory sessionId w))
    (fun req =>
       method req = GET
       /\ url req = Api.API_URL +:+ "/chat/" +:+ to_string sessionId +:+ "/messages").
Proof.
  unfold Api.getChatHistory, Api.api_get. rewrite returning_body_frame.
  destruct (api_request_exchanges GET ("/chat/" +:+ to_string sessionId +:+ "/messages")
              NoBody ∅ w) as (req & answer & Hlog & Hm & Hu & _).
  exists req, answer. auto.
Qed.

(** Reopening a date reattaches to its session: when the cache holds the id
    that an earlier visit stored for the date (the decimal form of the
    safe integer n, of magnitude at most 2^53 - 1) and the history of that
    session loads, the editor asks for the messages of session n and
    nothing else, the current session is n again, the messages shown are
    the history, and the cache is unchanged. *)
Theorem reopening_reattaches date st w n history :
  Z.abs n <= 9007199254740991 ->
  localStorage w !! ("chat_session_" +:+ date) = Some (to_string (VNum n)) ->
  fst (Api.getChatHistory (VStr (to_string (VNum n))) w) = Ret (VArr history) ->
  let final := snd (AITalk.initializeChatSession date (st, w)) in
  fst (AITalk.initializeChatSession date (st, w)) = Ret tt
  /\ AITalk.chatSessionId (fst final) = VNum n
  /\ AITalk.chatMessages (fst final) = history
  /\ localStorage (snd final) = localStorage w
  /\ exchanges w (snd final)
       (fun req =>
          method req = GET
          /\ url req = Api.API_URL +:+ "/chat/" +:+ to_string (VNum n) +:+ "/messages").
Proof.
  intros _ Hcached Hhistory final. subst final.
  rewrite (initializeChatSession_cached date st w (to_string (VNum n)))
    by (assumption || apply to_string_number_nonempty).
  rewrite Hhistory, parseInt_to_string.
  repeat split.
  - unfold Api.getChatHistory, Api.api_get. rewrite returning_body_frame.
    apply api_request_frame.
  - apply (getChatHistory_exchanges (VStr (to_string (VNum n))) w).
Qed.
End Editor.

(** The server answers "Nice" to the editor's "hello". *)
Lemma editor_reply_witness :
  let snap := editing "T" "C" "hello" in
  let w := browser ∅ [Some (Response 200 (VObj [("id", VNum 2); ("content", VStr "Nice")]))] in
  AITalk.chatMessages (fst (snd (AITalk.handleSendMessage snap (snap, w))))
  = [] ++ [user_message "hello"; model_message (VStr "Nice")].
Proof.
  intros snap w.
  destruct (@editor_reply_appended scripted snap snap w
              (VObj [("id", VNum 2); ("content", VStr "Nice")]) (VStr "Nice")
              eq_refl eq_refl eq_refl eq_refl) as (_ & ->).
  reflexivity.
Defined.

(** An entry with a title and no content, and a date with no entry. *)
Lemma fetchEntry_witness :
  let found := Response 200 (VObj [("title", VStr "Monday"); ("content", VStr "")]) in
  let missing := Response 404 (VObj [("detail", VStr "Entry not found")]) in
  fst (snd (AITalk.fetchEntry "2024-01-01" (editing "T" "C" "", browser ∅ [Some found])))
  = AITalk.setEntryExists true
      (AITalk.setTitle (VStr "Monday") (AITalk.setContent (VStr "") (editing "T" "C" "")))
  /\ fst (snd (AITalk.fetchEntry "2024-01-01" (editing "T" "C" "", browser ∅ [Some missing])))
     = AITalk.setEntryExists false
         (AITalk.setTitle (VStr "My Journal Entry")
            (AITalk.setContent (VStr "") (editing "T" "C" ""))).
Proof.
  intros found missing. split.
  - destruct (@fetchEntry_fills_resets_or_keeps scripted "2024-01-01"
                (editing "T" "C" "") (browser ∅ [Some found])) as (_ & Hfound & _).
    apply (Hfound (body found) (VStr "") (VStr "Monday")); reflexivity.
  - destruct (@fetchEntry_fills_resets_or_keeps scripted "2024-01-01"
                (editing "T" "C" "") (browser ∅ [Some missing])) as (_ & _ & Hmissing & _).
    apply (Hmissing VNull); reflexivity.
Defined.

(** Session 12 was cached for the date and its history loads. *)
Lemma reopening_witness :
  let w := browser {[ "chat_session_2024-01-01" := "12" ]}
             [Some (Response 200 (VArr [user_message "hi"]))] in
  AITalk.chatSessionId (fst (snd (AITalk.initializeChatSession "2024-01-01" (AITalk.initial, w))))
  = VNum 12.
Proof.
  intros w.
  destruct (@reopening_reattaches scripted "2024-01-01" AITalk.initial w 12
              [user_message "hi"] ltac:(simpl; lia) eq_refl eq_refl)
    as (_ & Hid & _).
  exact Hid.
Defined.

(** ** The standalone chat: sending, new chats, deleting and history *)

Section Standalone.
Context `{Server}.

Lemma readable_prop v name : readable v -> exists x, prop v name = Some x.
Proof. intros [Hnull Hundef]. destruct v; simpl; eauto; congruence. Qed.

Lemma trim_empty_string : trim "" = "".
Proof. reflexivity. Qed.

(** A blank message, a send while another is in flight, and a key press
    that is not a plain Enter change nothing: the whole state and the world
    (no request, nothing logged) stay as they were. A plain Enter is the send
    button. *)
Theorem standalone_send_guard customMessage key shiftKey now today snap st w :
  (is_empty (trim (message_to_send customMessage snap)) = true
   \/ ChatInterface.isLoading snap = true ->
   ChatInterface.handleSendMessage customMessage now today snap (st, w)
   = (Ret tt, (st, w)))
  /\ (key <> "Enter" \/ shiftKey = true ->
      ChatInterface.handleKeyPress key shiftKey now today snap (st, w)
      = (Ret tt, (st, w)))
  /\ ChatInterface.handleKeyPress "Enter" false now today snap (st, w)
     = ChatInterface.handleSendMessage VUndefined now today snap (st, w).
Proof.
  split; [|split; [|reflexivity]].
  - intros Hguard. unfold ChatInterface.handleSendMessage.
    fold (message_to_send customMessage snap).
    replace (negb (truthy (VStr (message_to_send customMessage snap)))
             || is_empty (trim (message_to_send customMessage snap))
             || ChatInterface.isLoading snap) with true; [reflexivity|].
    symmetry. destruct Hguard as [-> | ->].
    + now rewrite orb_true_r.
    + apply orb_true_r.
  - intros Hkey. unfold ChatInterface.handleKeyPress.
    destruct Hkey as [Hother | ->].
    + apply String.eqb_neq in Hother. now rewrite Hother.
    + now rewrite andb_false_r.
Qed.

(** A message sent to the selected session: no session is created, the one
    request is a post to that session whose payload has role and content
    only (the standalone chat never sends a context), and when the server
    answers, the view gains the user's message and then the assistant's
    reply; the input is cleared, the loading flag is off again, and the
    sessions and the selection are untouched. *)
Theorem standalone_reply_appended customMessage now today snap st w
    reply reply_id reply_content reply_timestamp :
  let text := message_to_send customMessage snap in
  is_empty (trim text) = false ->
  ChatInterface.isLoading snap = false ->
  truthy (ChatInterface.currentSessionId snap) = true ->
  fst (Api.sendMessage (ChatInterface.currentSessionId snap) text VUndefined w)
  = Ret reply ->
  prop reply "id" = Some reply_id ->
  prop reply "content" = Some reply_content ->
  prop reply "timestamp" = Some reply_timestamp ->
  let run := ChatInterface.handleSendMessage customMessage now today snap (st, w) in
  fst run = Ret tt
  /\ fst (snd run) =
       {| ChatInterface.messages :=
            ChatInterface.messages st
            ++ [shown_message text now today;
                shown_reply reply_id reply_content reply_timestamp];
          ChatInterface.inputMessage := "";
          ChatInterface.isMenuCollapsed := ChatInterface.isMenuCollapsed st;
          ChatInterface.isLoading := false;
          ChatInterface.sessions := ChatInterface.sessions st;
          ChatInterface.currentSessionId := ChatInterface.currentSessionId st |}
  /\ exchanges w (snd (snd run))
       (fun req =>
          method req = POST
          /\ url req = Api.API_URL +:+ "/chat/"
                       +:+ to_string (ChatInterface.currentSessionId snap)
          /\ data req = Json (VObj [("role", VStr "user"); ("content", VStr text)])).
Proof.
  intros text Htext Hidle Hselected Hreply Hid Hcontent Htimestamp run.
  subst text run.
  rewrite standalone_send_run by assumption. rewrite Hselected. simpl.
  split; [now rewrite deliver_run|]. split; [|apply deliver_exchanges].
  rewrite deliver_run. simpl. rewrite Hreply, Hid, Hcontent, Htimestamp. simpl.
  unfold ChatInterface.setIsLoading, ChatInterface.setMessages,
    ChatInterface.setInputMessage, shown_reply. simpl.
  now rewrite <- app_assoc.
Qed.

(** A new chat that the server creates is put at the head of the list of
    sessions, becomes the selected session, and the view shows the welcome
    message alone; when the creation fails nothing changes and nothing is
    thrown, the failure being logged. One request is made either way. *)
Theorem handleNewChat_selects_new_session today snap st w :
  let run := ChatInterface.handleNewChat today snap (st, w) in
  fst run = Ret tt
  /\ exchanges w (snd (snd run))
       (fun req =>
          method req = POST /\ url req = Api.API_URL +:+ "/chat/sessions"
          /\ data req = Json (VObj [("title", VStr "New Chat")]))
  /\ (forall newSession new_id,
        fst (Api.createChatSession VUndefined w) = Ret newSession ->
        prop newSession "id" = Some new_id ->
        fst (snd run) =
          {| ChatInterface.messages := [ChatInterface.welcome today];
             ChatInterface.inputMessage := ChatInterface.inputMessage st;
             ChatInterface.isMenuCollapsed := ChatInterface.isMenuCollapsed st;
             ChatInterface.isLoading := ChatInterface.isLoading st;
             ChatInterface.sessions := newSession :: ChatInterface.sessions snap;
             ChatInterface.currentSessionId := new_id |})
  /\ (forall e,
        fst (Api.createChatSession VUndefined w) = Throw e ->
        fst (snd run) = st
        /\ console (snd (snd run)) = console w ++ ["Failed to create new chat"]).
Proof.
  intros run. subst run.
  pose proof (createChatSession_exchanges VUndefined w) as Hcreate.
  assert (Hconsole : console (snd (Api.createChatSession VUndefined w)) = console w).
  { unfold Api.createChatSession, Api.api_post. rewrite returning_body_frame.
    apply api_request_frame. }
  unfold ChatInterface.handleNewChat. run_handler.
  destruct (Api.createChatSession VUndefined w) as [[newSession|e] w'] eqn:Hrun;
    simpl in *.
  - destruct (prop newSession "id") as [new_id|] eqn:Hid; simpl.
    + split; [reflexivity|]. split; [assumption|]. split; [|discriminate].
      intros s i [= <-] Hi. assert (i = new_id) as -> by congruence.
      reflexivity.
    + split; [reflexivity|]. split; [assumption|]. split; [|discriminate].
      intros s i [= <-] Hi. congruence.
  - split; [reflexivity|]. split; [assumption|]. split; [discriminate|].
    intros e' _. split; [reflexivity|]. now rewrite Hconsole.
Qed.
End Standalone.

Section SessionsAndHistory.
Context `{Server}.

(** A handler that logs what it catches never throws. *)
Lemma logging_catch_returns {S} (m : M (S * world) unit) msg s :
  fst (try_catch m (fun _ => on_snd (console_error msg)) s) = Ret tt.
Proof.
  unfold try_catch, on_snd, console_error, modify.
  destruct (m s) as [[[]|e] s']; reflexivity.
Qed.

Lemma readable_dec v : readable v \/ (forall name, prop v name = None).
Proof.
  destruct v; try (left; split; discriminate); right; reflexivity.
Qed.

(** The filter returns the sessions of another id when every session can
    be read, and throws otherwise; it changes nothing. *)
Lemma without_session_cases {S} sessionId l (s0 : S) :
  (Forall readable l
   /\ ChatInterface.without_session sessionId l s0 =
        (Ret (filter (fun s => strict_eq (session_id s) sessionId = false) l), s0))
  \/ (exists e, ChatInterface.without_session sessionId l s0 = (Throw e, s0)).
Proof.
  induction l as [|s l IH]; [left; split; [constructor | reflexivity]|].
  simpl. unfold bind, get_prop.
  destruct (readable_dec s) as [Hs | Hs].
  - destruct (readable_prop s "id" Hs) as (s_id & Hid). rewrite Hid.
    unfold ret. simpl.
    destruct IH as [(Hall & Hrest) | (e & Hrest)]; rewrite Hrest.
    + left. split; [now constructor|].
      rewrite filter_cons. unfold session_id. rewrite Hid. simpl.
      destruct (strict_eq s_id sessionId); reflexivity.
    + right. exists e. reflexivity.
  - rewrite Hs. right. eexists. reflexivity.
Qed.

Lemma without_session_run {S} sessionId l (s0 : S) :
  Forall readable l ->
  ChatInterface.without_session sessionId l s0 =
    (Ret (filter (fun s => strict_eq (session_id s) sessionId = false) l), s0).
Proof.
  induction 1 as [|s l Hs _ IH]; [reflexivity|].
  destruct (readable_prop s "id" Hs) as (s_id & Hid).
  simpl. unfold bind, get_prop. rewrite Hid. unfold ret. simpl. rewrite IH.
  rewrite filter_cons. unfold session_id. rewrite Hid. simpl.
  destruct (strict_eq s_id sessionId); reflexivity.
Qed.

Lemma filter_head_readable sessionId l first rest :
  Forall readable l ->
  filter (fun s => strict_eq (session_id s) sessionId = false) l = first :: rest ->
  prop first "id" = Some (session_id first).
Proof.
  intros Hall Hfilter.
  assert (Hin : first ∈ filter (fun s => strict_eq (session_id s) sessionId = false) l)
    by (rewrite Hfilter; left).
  apply list_elem_of_filter in Hin as [_ Hin].
  rewrite Forall_forall in Hall.
  destruct (readable_prop first "id" (Hall first Hin)) as (x & Hx).
  unfold session_id. now rewrite Hx.
Qed.

Lemma deleteChatSession_exchanges sessionId w :
  exchanges w (snd (Api.deleteChatSession sessionId w))
    (fun req =>
       method req = DELETE
       /\ url req = Api.API_URL +:+ "/chat/sessions/" +:+ to_string sessionId)
  /\ console (snd (Api.deleteChatSession sessionId w)) = console w.
Proof.
  unfold Api.deleteChatSession, Api.api_delete. rewrite returning_body_frame.
  split; [|apply api_request_frame].
  destruct (api_request_exchanges DELETE ("/chat/sessions/" +:+ to_string sessionId)
              NoBody ∅ w) as (req & answer & Hlog & Hm & Hu & _).
  exists req, answer. auto.
Qed.

Lemma handleDeleteChat_run sessionId snap st w :
  let r := Api.deleteChatSession sessionId w in
  ChatInterface.handleDeleteChat true sessionId snap (st, w) =
    (Ret tt,
     match fst r with
     | Ret _ =>
         match fst (ChatInterface.without_session sessionId
                      (ChatInterface.sessions snap) (st, snd r)) with
         | Ret _ => (after_delete sessionId snap st, snd r)
         | Throw _ => (st, logged "Failed to delete chat" (snd r))
         end
     | Throw _ => (st, logged "Failed to delete chat" (snd r))
     end).
Proof.
  intros r. subst r.
  unfold ChatInterface.handleDeleteChat, try_catch, bind at 1, on_snd at 1.
  simpl.
  destruct (Api.deleteChatSession sessionId w) as [[answer|e] w']; simpl;
    [|reflexivity].
  unfold bind at 1.
  destruct (without_session_cases sessionId (ChatInterface.sessions snap) (st, w'))
    as [(Hall & Hfilter) | (e & Hfilter)]; rewrite Hfilter; simpl; [|reflexivity].
  unfold after_delete, bind, on_fst, modify. simpl.
  destruct (strict_eq (ChatInterface.currentSessionId snap) sessionId); simpl;
    [|reflexivity].
  destruct (filter _ (ChatInterface.sessions snap)) as [|first rest] eqn:Hrem;
    simpl; [reflexivity|].
  unfold get_prop.
  rewrite (filter_head_readable sessionId _ first rest Hall Hrem). reflexivity.
Qed.

(** Deleting a chat. Without the user's confirmation nothing happens, not
    even a request. With it, one DELETE of the session is sent and nothing
    is ever thrown. When the server refuses, the state is unchanged and the
    session stays listed. When it accepts, the sessions listed are the
    former ones without those of the deleted id, in their order; if the
    deleted session was the selected one, the first remaining session is
    selected, or none when no session remains, in which case the messages
    are cleared; otherwise selection and messages are untouched. *)
Theorem handleDeleteChat_removes_session confirmed sessionId snap st w :
  is_primitive sessionId = true ->
  let run := ChatInterface.handleDeleteChat confirmed sessionId snap (st, w) in
  let remaining :=
    filter (fun s => strict_eq (session_id s) sessionId = false)
      (ChatInterface.sessions snap) in
  fst run = Ret tt
  /\ (confirmed = false -> snd run = (st, w))
  /\ (confirmed = true ->
      exchanges w (snd (snd run))
        (fun req =>
           method req = DELETE
           /\ url req = Api.API_URL +:+ "/chat/sessions/" +:+ to_string sessionId)
      /\ (forall e,
            fst (Api.deleteChatSession sessionId w) = Throw e -> fst (snd run) = st)
      /\ (forall answer,
            fst (Api.deleteChatSession sessionId w) = Ret answer ->
            Forall readable (ChatInterface.sessions snap) ->
            ChatInterface.sessions (fst (snd run)) = remaining
            /\ ChatInterface.currentSessionId (fst (snd run)) =
                 (if strict_eq (ChatInterface.currentSessionId snap) sessionId
                  then match remaining with
                       | first :: _ => session_id first
                       | [] => VNull
                       end
                  else ChatInterface.currentSessionId st)
            /\ ChatInterface.messages (fst (snd run)) =
                 (if strict_eq (ChatInterface.currentSessionId snap) sessionId
                  then match remaining with
                       | [] => []
                       | _ :: _ => ChatInterface.messages st
                       end
                  else ChatInterface.messages st))).
Proof.
  intros _ run remaining. subst run remaining.
  destruct confirmed.
  2: { split; [reflexivity|]. split; [reflexivity | discriminate]. }
  rewrite handleDeleteChat_run. simpl fst. simpl snd.
  split; [reflexivity|]. split; [discriminate|]. intros _.
  destruct (deleteChatSession_exchanges sessionId w) as (Hdelete & _).
  destruct (fst (Api.deleteChatSession sessionId w)) as [answer|e].
  - split; [|split; [discriminate|]].
    + destruct (fst (ChatInterface.without_session sessionId
                       (ChatInterface.sessions snap)
                       (st, snd (Api.deleteChatSession sessionId w))));
        simpl; assumption.
    + intros _ _ Hall. rewrite without_session_run by assumption. simpl.
      unfold after_delete.
      destruct (strict_eq (ChatInterface.currentSessionId snap) sessionId);
        [|auto].
      destruct (filter _ (ChatInterface.sessions snap)); auto.
  - simpl. split; [assumption|]. split; [reflexivity | discriminate].
Qed.
Lemma format_messages_cases {S} l (s0 : S) :
  (Forall readable l
   /\ ChatInterface.format_messages l s0 = (Ret (shown_history_message <$> l), s0))
  \/ (exists e, ChatInterface.format_messages l s0 = (Throw e, s0)).
Proof.
  induction l as [|msg l IH]; [left; split; [constructor | reflexivity]|].
  simpl. unfold bind, ChatInterface.format_message, bind, get_prop.
  destruct (readable_dec msg) as [Hmsg | Hmsg].
  - destruct (readable_prop msg "id" Hmsg) as (x_id & Hid).
    destruct (readable_prop msg "role" Hmsg) as (x_role & Hrole).
    destruct (readable_prop msg "content" Hmsg) as (x_content & Hcontent).
    destruct (readable_prop msg "timestamp" Hmsg) as (x_timestamp & Htimestamp).
    rewrite Hid, Hrole, Hcontent, Htimestamp. unfold ret. simpl.
    destruct IH as [(Hall & Hrest) | (e & Hrest)]; rewrite Hrest.
    + left. split; [now constructor|].
      unfold shown_history_message. now rewrite Hid, Hrole, Hcontent, Htimestamp.
    + right. exists e. reflexivity.
  - rewrite !Hmsg. right. eexists. reflexivity.
Qed.

Lemma format_messages_run {S} l (s0 : S) :
  Forall readable l ->
  ChatInterface.format_messages l s0 = (Ret (shown_history_message <$> l), s0).
Proof.
  induction 1 as [|msg l Hmsg _ IH]; [reflexivity|].
  destruct (readable_prop msg "id" Hmsg) as (x_id & Hid).
  destruct (readable_prop msg "role" Hmsg) as (x_role & Hrole).
  destruct (readable_prop msg "content" Hmsg) as (x_content & Hcontent).
  destruct (readable_prop msg "timestamp" Hmsg) as (x_timestamp & Htimestamp).
  simpl. unfold bind, ChatInterface.format_message, bind, get_prop.
  rewrite Hid, Hrole, Hcontent, Htimestamp. unfold ret. simpl. rewrite IH.
  unfold shown_history_message. now rewrite Hid, Hrole, Hcontent, Htimestamp.
Qed.

Lemma getChatHistory_console sessionId w :
  console (snd (Api.getChatHistory sessionId w)) = console w.
Proof.
  unfold Api.getChatHistory, Api.api_get. rewrite returning_body_frame.
  apply api_request_frame.
Qed.

Lemma loadChatHistory_run today sessionId st w :
  let r := Api.getChatHistory sessionId w in
  ChatInterface.loadChatHistory today sessionId (st, w) =
    (Ret tt,
     match fst r with
     | Ret (VArr elems) =>
         match fst (ChatInterface.format_messages elems (st, snd r)) with
         | Ret [] =>
             (ChatInterface.setMessages (fun _ => [ChatInterface.welcome today]) st,
              snd r)
         | Ret (m :: shown) =>
             (ChatInterface.setMessages (fun _ => m :: shown) st, snd r)
         | Throw _ => (st, logged "Failed to load chat history" (snd r))
         end
     | _ => (st, logged "Failed to load chat history" (snd r))
     end).
Proof.
  intros r. subst r.
  unfold ChatInterface.loadChatHistory, try_catch, bind at 1, on_snd at 1.
  simpl.
  destruct (Api.getChatHistory sessionId w) as [[history|e] w']; simpl;
    [|reflexivity].
  unfold bind at 1.
  destruct history; try reflexivity.
  simpl ChatInterface.map_history.
  destruct (format_messages_cases elems (st, w'))
    as [(Hall & Hmap) | (e & Hmap)]; rewrite Hmap; simpl; [|reflexivity].
  destruct (shown_history_message <$> elems); reflexivity.
Qed.

(** Loading the history of a session never throws and asks the server
    once. A history with messages is shown in its order, one message of the
    view per message of the history, a message of role "model" as the
    assistant's and every other as the user's; an empty history shows the
    welcome message alone; when the request fails, or its answer is not an
    array, the state is unchanged and the failure is logged. *)
Theorem loadChatHistory_shows_history today sessionId st w :
  let run := ChatInterface.loadChatHistory today sessionId (st, w) in
  fst run = Ret tt
  /\ exchanges w (snd (snd run))
       (fun req =>
          method req = GET
          /\ url req = Api.API_URL +:+ "/chat/" +:+ to_string sessionId +:+ "/messages")
  /\ (forall msg history,
        fst (Api.getChatHistory sessionId w) = Ret (VArr (msg :: history)) ->
        Forall readable (msg :: history) ->
        fst (snd run) =
          ChatInterface.setMessages
            (fun _ => shown_history_message <$> (msg :: history)) st)
  /\ (fst (Api.getChatHistory sessionId w) = Ret (VArr []) ->
        fst (snd run) = ChatInterface.setMessages (fun _ => [ChatInterface.welcome today]) st)
  /\ ((forall elems, fst (Api.getChatHistory sessionId w) <> Ret (VArr elems)) ->
        fst (snd run) = st
        /\ console (snd (snd run)) = console w ++ ["Failed to load chat history"]).
Proof.
  intros run. subst run. rewrite loadChatHistory_run. simpl fst. simpl snd.
  split; [reflexivity|].
  pose proof (getChatHistory_exchanges sessionId w) as Hget.
  pose proof (getChatHistory_console sessionId w) as Hconsole.
  destruct (fst (Api.getChatHistory sessionId w)) as [history|e].
  - split; [|split; [|split]].
    + destruct history; try assumption.
      destruct (fst (ChatInterface.format_messages elems
                       (st, snd (Api.getChatHistory sessionId w))))
        as [[|m shown]|e]; assumption.
    + intros msg l [= ->] Hall. rewrite format_messages_run by assumption.
      reflexivity.
    + intros [= ->]. reflexivity.
    + intros Hnot. destruct history; try (now destruct (Hnot elems));
        simpl; now rewrite Hconsole.
  - split; [assumption|]. split; [intros msg l [=]|]. split; [intros [=]|].
    intros _. simpl. now rewrite Hconsole.
Qed.

End SessionsAndHistory.

(** Session 1 is selected and "hello" typed; the server answers. *)
Lemma standalone_reply_witness :
  let snap := ChatInterface.setCurrentSessionId (VNum 1)
                (ChatInterface.setInputMessage "hello" ChatInterface.initial) in
  let reply := VObj [("id", VNum 9); ("content", VStr "Hi"); ("timestamp", VStr "2024-01-01T10:00:00")] in
  let run := ChatInterface.handleSendMessage VUndefined 1000 1001 snap
               (snap, browser ∅ [Some (Response 200 reply)]) in
  ChatInterface.messages (fst (snd run))
  = [shown_message "hello" 1000 1001;
     shown_reply (VNum 9) (VStr "Hi") (VStr "2024-01-01T10:00:00")].
Proof.
  intros snap reply run.
  assert (Hstate := @standalone_reply_appended scripted VUndefined 1000 1001 snap snap
                      (browser ∅ [Some (Response 200 reply)]) reply
                      (VNum 9) (VStr "Hi") (VStr "2024-01-01T10:00:00")).
  destruct Hstate as (_ & Hstate & _); [reflexivity .. |].
  subst run. rewrite Hstate. reflexivity.
Defined.

(** A blank message, and Shift+Enter. *)
Lemma standalone_guard_witness :
  let snap := ChatInterface.setInputMessage "  " ChatInterface.initial in
  ChatInterface.handleSendMessage VUndefined 1000 1001 snap (snap, browser ∅ [None])
  = (Ret tt, (snap, browser ∅ [None]))
  /\ ChatInterface.handleKeyPress "Enter" true 1000 1001 snap (snap, browser ∅ [None])
     = (Ret tt, (snap, browser ∅ [None])).
Proof.
  intros snap.
  destruct (@standalone_send_guard scripted VUndefined "Enter" true 1000 1001 snap snap
              (browser ∅ [None])) as (Hblank & Hkey & _).
  split; [apply Hblank; left; reflexivity | apply Hkey; right; reflexivity].
Defined.

(** The server creates session 5 for a new chat. *)
Lemma handleNewChat_witness :
  let session := VObj [("id", VNum 5); ("title", VStr "New Chat")] in
  let run := ChatInterface.handleNewChat 1001 ChatInterface.initial
               (ChatInterface.initial, browser ∅ [Some (Response 200 session)]) in
  ChatInterface.currentSessionId (fst (snd run)) = VNum 5
  /\ ChatInterface.sessions (fst (snd run)) = [session].
Proof.
  intros session run.
  destruct (@handleNewChat_selects_new_session scripted 1001 ChatInterface.initial
              ChatInterface.initial (browser ∅ [Some (Response 200 session)]))
    as (_ & _ & Hcreated & _).
  subst run. rewrite (Hcreated session (VNum 5) eq_refl eq_refl).
  split; reflexivity.
Defined.

(** Sessions 1 and 2 are listed, 1 is selected and is deleted. *)
Lemma handleDeleteChat_witness :
  let s1 := VObj [("id", VNum 1)] in
  let s2 := VObj [("id", VNum 2)] in
  let snap := ChatInterface.setCurrentSessionId (VNum 1)
                (ChatInterface.setSessions [s1; s2] ChatInterface.initial) in
  let run := ChatInterface.handleDeleteChat true (VNum 1) snap
               (snap, browser ∅ [Some (Response 200 (VObj [("ok", VBool true)]))]) in
  ChatInterface.sessions (fst (snd run)) = [s2]
  /\ ChatInterface.currentSessionId (fst (snd run)) = VNum 2.
Proof.
  intros s1 s2 snap run.
  destruct (@handleDeleteChat_removes_session scripted true (VNum 1) snap snap
              (browser ∅ [Some (Response 200 (VObj [("ok", VBool true)]))]) eq_refl)
    as (_ & _ & Hconfirmed).
  destruct (Hconfirmed eq_refl) as (_ & _ & Haccepted).
  destruct (Haccepted (VObj [("ok", VBool true)]) eq_refl) as (Hlist & Hcurrent & _).
  - repeat constructor; discriminate.
  - subst run. rewrite Hlist, Hcurrent. split; reflexivity.
Defined.

(** A history of a user's and a model's message. *)
Lemma loadChatHistory_witness :
  let m1 := VObj [("id", VNum 1); ("role", VStr "user"); ("content", VStr "hi");
                  ("timestamp", VStr "t1")] in
  let m2 := VObj [("id", VNum 2); ("role", VStr "model"); ("content", VStr "hello");
                  ("timestamp", VStr "t2")] in
  let run := ChatInterface.loadChatHistory 1001 (VNum 1)
               (ChatInterface.initial, browser ∅ [Some (Response 200 (VArr [m1; m2]))]) in
  ChatInterface.role <$> ChatInterface.messages (fst (snd run)) = ["user"; "assistant"].
Proof.
  intros m1 m2 run.
  destruct (@loadChatHistory_shows_history scripted 1001 (VNum 1) ChatInterface.initial
              (browser ∅ [Some (Response 200 (VArr [m1; m2]))]))
    as (_ & _ & Hshown & _).
  subst run. rewrite (Hshown m1 [m2] eq_refl).
  - reflexivity.
  - repeat constructor; discriminate.
Defined.

(** ** Routing *)

Lemma before_T_date (date rest : string) :
  no_T date = true -> App.before_T (date +:+ String "T" rest) = date.
Proof.
  induction date as [|a date IH]; intros Hno; [reflexivity|].
  simpl in Hno. apply andb_true_iff in Hno as [Ha Hdate].
  change (String a date +:+ String "T" rest)
    with (String a (date +:+ String "T" rest)).
  simpl. destruct (Ascii.eqb a "T"); [discriminate|]. now rewrite IH.
Qed.

Lemma handle_returns_to_a_page ev st :
  returns_to_a_page st -> returns_to_a_page (App.handle ev st).
Proof.
  unfold returns_to_a_page. destruct ev; simpl; auto.
Qed.

Lemma run_returns_to_a_page events st :
  returns_to_a_page st -> returns_to_a_page (App.run events st).
Proof.
  revert st. induction events as [|ev events IH]; intros st Hst; [assumption|].
  simpl. apply IH. now apply handle_returns_to_a_page.
Qed.

(** Routing. Back from the editor shows the view the editor was opened
    from: the calendar after a day was opened there, the chat after "Start a
    new journal", which opens the editor on the date part of the clock's ISO
    reading. After any sequence of events, Back never leaves the user in
    the editor. A logout shows the landing view whatever the page was, and
    the login after it starts on the chat. *)
Theorem back_leaves_the_editor events st date iso_date iso_time :
  App.isLoggedIn st = true ->
  no_T iso_date = true ->
  App.render (App.handleOpenAITalk date st) = App.Editor date
  /\ App.render (App.handleBackFromAITalk (App.handleOpenAITalk date st)) = App.Calendar
  /\ App.render (App.handleStartNewJournal (iso_date +:+ String "T" iso_time) st)
     = App.Editor (VStr iso_date)
  /\ App.render (App.handleBackFromAITalk
                   (App.handleStartNewJournal (iso_date +:+ String "T" iso_time) st))
     = App.Chat
  /\ (forall d, App.render (App.handleBackFromAITalk (App.run events App.initial))
                <> App.Editor d)
  /\ App.render (App.handleLogout st) = App.Landing
  /\ App.render (App.handleLogin (App.handleLogout st)) = App.Chat.
Proof.
  intros Hin Hdate. unfold App.render. simpl. rewrite Hin. simpl.
  rewrite before_T_date by assumption.
  repeat split.
  intros d.
  destruct (run_returns_to_a_page events App.initial (or_introl eq_refl)) as [-> | ->];
    destruct (App.isLoggedIn (App.run events App.initial)); discriminate.
Qed.

(** A user opens a day from the calendar, goes back, starts a new journal
    at ten past nine and goes back. *)
Lemma back_leaves_the_editor_witness :
  let st := App.run [App.Login; App.NavigateToCalendar] App.initial in
  App.render (App.handleBackFromAITalk (App.handleOpenAITalk (VStr "2024-01-01") st))
  = App.Calendar
  /\ App.render (App.handleStartNewJournal "2024-03-05T09:10:00.000Z" st)
     = App.Editor (VStr "2024-03-05").
Proof.
  intros st.
  destruct (@back_leaves_the_editor [] st (VStr "2024-01-01") "2024-03-05" "09:10:00.000Z"
              eq_refl eq_refl) as (_ & Hback & Hnew & _).
  split; [exact Hback | exact Hnew].
Defined.

(** ** The endpoints of the client *)

Section Endpoints.
Context `{Server}.

Lemma returning_body_calls m path d hdrs w :
  calls ((response <- Api.api_request m path d hdrs;; ret (body response)) w) w m path d.
Proof.
  destruct (api_request_run m path d hdrs w) as (req & Hrun & Hm & Hu & Hd & _).
  exists req. do 3 (split; [assumption|]).
  unfold bind, ret. rewrite Hrun.
  destruct (Api.settle (fst (Api.exchange req w))); reflexivity.
Qed.

(** Each data function of the client is one request to its endpoint, with
    the defaults of its parameters filled in; it returns the data of the
    response and hands every rejection on to its caller unchanged. (The
    lookup of an entry, which turns a 404 into [null], and the login are
    the two exceptions.) *)
Theorem client_endpoints w :
  (forall email password,
     calls (Api.register email password w) w POST "/register"
       (Json (VObj [("email", email); ("password", password)])))
  /\ calls (Api.getEntries VUndefined VUndefined w) w GET
       "/entries/?skip=0&limit=100" NoBody
  /\ (forall skip limit,
        calls (Api.getEntries (VNum skip) (VNum limit) w) w GET
          ("/entries/?skip=" +:+ to_string (VNum skip) +:+ "&limit="
           +:+ to_string (VNum limit)) NoBody)
  /\ (forall entry, calls (Api.createEntry entry w) w POST "/entries/" (Json entry))
  /\ (forall date entry,
        calls (Api.updateEntry date entry w) w PUT ("/entries/" +:+ date) (Json entry))
  /\ (forall date, calls (Api.deleteEntry date w) w DELETE ("/entries/" +:+ date) NoBody)
  /\ (forall sessionId content,
        calls (Api.sendMessage sessionId content VUndefined w) w POST
          ("/chat/" +:+ to_string sessionId)
          (Json (VObj [("role", VStr "user"); ("content", VStr content)])))
  /\ (forall sessionId,
        calls (Api.getChatHistory sessionId w) w GET
          ("/chat/" +:+ to_string sessionId +:+ "/messages") NoBody)
  /\ calls (Api.getChatSessions w) w GET "/chat/sessions" NoBody
  /\ calls (Api.createChatSession VUndefined w) w POST "/chat/sessions"
       (Json (VObj [("title", VStr "New Chat")]))
  /\ (forall title,
        calls (Api.createChatSession (VStr title) w) w POST "/chat/sessions"
          (Json (VObj [("title", VStr title)])))
  /\ (forall sessionId,
        calls (Api.deleteChatSession sessionId w) w DELETE
          ("/chat/sessions/" +:+ to_string sessionId) NoBody).
Proof.
  repeat split; intros; apply returning_body_calls.
Qed.

(** When the history of the cached session fails to load and the
    replacement session cannot be created either, nothing is thrown, the
    cache is left as it was, and the stale id, read as a number, stays the
    editor's current session; the messages shown are unchanged. *)
Theorem failed_replacement_keeps_stale_session date st w sid e w1 :
  localStorage w !! ("chat_session_" +:+ date) = Some sid -> sid <> "" ->
  Api.getChatHistory (VStr sid) w = (Throw e, w1) ->
  (forall session new_id,
     fst (Api.createChatSession (VStr ("Journal: " +:+ date))
            (logged "Failed to load chat history, creating new session" w1))
     = Ret session -> prop session "id" <> Some new_id) ->
  let final := snd (AITalk.initializeChatSession date (st, w)) in
  fst (AITalk.initializeChatSession date (st, w)) = Ret tt
  /\ AITalk.chatSessionId (fst final) = parseInt sid
  /\ AITalk.chatMessages (fst final) = AITalk.chatMessages st
  /\ localStorage (snd final) = localStorage w
  /\ console (snd final) =
       console w ++ ["Failed to load chat history, creating new session";
                     "Failed to create chat session:"].
Proof.
  intros Hcached Hne Hhistory Hfails final. subst final.
  split; [apply initializeChatSession_returns|].
  rewrite (initializeChatSession_cached date st w sid) by assumption.
  rewrite Hhistory. simpl fst. simpl snd. rewrite createNewSession_run.
  simpl snd.
  assert (Hw1 : localStorage w1 = localStorage w /\ console w1 = console w).
  { replace w1 with (snd (Api.getChatHistory (VStr sid) w)) by now rewrite Hhistory.
    unfold Api.getChatHistory, Api.api_get. rewrite returning_body_frame.
    apply api_request_frame. }
  destruct Hw1 as (Hstorage & Hconsole).
  set (w1' := logged "Failed to load chat history, creating new session" w1) in *.
  assert (Hcreate : localStorage (snd (Api.createChatSession (VStr ("Journal: " +:+ date)) w1'))
                    = localStorage w1'
                    /\ console (snd (Api.createChatSession (VStr ("Journal: " +:+ date)) w1'))
                       = console w1').
  { unfold Api.createChatSession, Api.api_post. rewrite returning_body_frame.
    apply api_request_frame. }
  destruct Hcreate as (Hstorage' & Hconsole').
  assert (Hdone :
    forall st0,
      (match fst (Api.createChatSession (VStr ("Journal: " +:+ date)) w1') with
       | Ret session =>
           match prop session "id" with
           | Some new_id =>
               (AITalk.setChatMessages (fun _ => [AITalk.greeting])
                  (AITalk.setChatSessionId new_id st0),
                snd (Api.setItem ("chat_session_" +:+ date) new_id
                       (snd (Api.createChatSession (VStr ("Journal: " +:+ date)) w1'))))
           | None =>
               (st0, logged "Failed to create chat session:"
                       (snd (Api.createChatSession (VStr ("Journal: " +:+ date)) w1')))
           end
       | Throw _ =>
           (st0, logged "Failed to create chat session:"
                   (snd (Api.createChatSession (VStr ("Journal: " +:+ date)) w1')))
       end)
      = (st0, logged "Failed to create chat session:"
                (snd (Api.createChatSession (VStr ("Journal: " +:+ date)) w1')))).
  { intros st0.
    destruct (fst (Api.createChatSession (VStr ("Journal: " +:+ date)) w1'))
      as [session|e'] eqn:Hout; [|reflexivity].
    destruct (prop session "id") as [new_id|] eqn:Hid; [|reflexivity].
    now destruct (Hfails session new_id eq_refl). }
  rewrite Hdone. simpl.
  repeat split.
  - rewrite Hstorage'. exact Hstorage.
  - rewrite Hconsole'. subst w1'. simpl. rewrite Hconsole, <- app_assoc. reflexivity.
Qed.
End Endpoints.

(** Session 7 is cached and gone, and the server is then unreachable. *)
Lemma failed_replacement_witness :
  let gone := Response 404 (VObj [("detail", VStr "Session not found")]) in
  let w := browser {[ "chat_session_2024-01-01" := "7" ]} [Some gone; None] in
  let final := snd (AITalk.initializeChatSession "2024-01-01" (AITalk.initial, w)) in
  AITalk.chatSessionId (fst final) = VNum 7
  /\ localStorage (snd final) !! "chat_session_2024-01-01" = Some "7".
Proof.
  intros gone w final.
  edestruct (@failed_replacement_keeps_stale_session scripted "2024-01-01"
               AITalk.initial w "7") as (_ & Hid & _ & Hstorage & _);
    [reflexivity | discriminate | reflexivity | intros session new_id; discriminate |].
  subst final. rewrite Hid, Hstorage. split; reflexivity.
Defined.

(** ** Saving and the store *)

Section UpsertStore.
Context `{Server}.












End UpsertStore.





